(** * syncall.py: reconciling a search index against a CSV blob

    A shallow embedding of [src/syncall.py] and the properties of its
    three stages: [search_index] (Index Reader), [load_csv_from_blob]
    (Reference Loader) and [main] with [delete_documents_from_index]
    (Reconciler and deletion).

    The script talks to three libraries: [requests], [azure.storage.blob]
    and [pandas].  Their answers are the fields of a [World]; everything the
    script does with those answers (subscripts, comprehensions, slices,
    f-strings, prints) is modelled here as Python evaluates it, with
    exceptions made explicit and the prints and requests collected in a
    trace. *)

From Stdlib Require Import List ZArith NArith String Ascii Bool Lia DecimalString.
Import ListNotations.

Set Implicit Arguments.
Set Warnings "-register-all".

(** ** Python strings *)

(** A [str] is a sequence of code points; slicing and length count code
    points, as in Python 3. *)
Definition char := N.
Definition str := list char.

Definition lit (s : string) : str := map N_of_ascii (list_ascii_of_string s).

Fixpoint str_eqb (a b : str) : bool :=
  match a, b with
  | [], [] => true
  | x :: a', y :: b' => N.eqb x y && str_eqb a' b'
  | _, _ => false
  end.

(** [str(n)] for an [int]. *)
Definition str_of_int (n : Z) : str := lit (NilZero.string_of_int (Z.to_int n)).

(** [sep.join(parts)] *)
Fixpoint join (sep : str) (parts : list str) : str :=
  match parts with
  | [] => []
  | [p] => p
  | p :: rest => p ++ sep ++ join sep rest
  end.

(** ** Python objects *)

(** The hashable objects that can key a dict here: [None], [bool], [int]
    and [str]. *)
Inductive key :=
| KNone
| KBool (b : bool)
| KInt (n : Z)
| KStr (s : str).

(** What [json.loads] builds, floats left out: a JSON number with a fraction
    or an exponent decodes to a [float], which this development does not
    represent. A dict keeps its items in insertion order. *)
Inductive value :=
| VNone
| VBool (b : bool)
| VInt (n : Z)
| VStr (s : str)
| VList (items : list value)
| VDict (items : list (key * value)).

Definition key_value (k : key) : value :=
  match k with
  | KNone => VNone
  | KBool b => VBool b
  | KInt n => VInt n
  | KStr s => VStr s
  end.

(** [hash(v)] succeeds on the scalars and raises [TypeError] on lists and
    dicts. *)
Definition hashable (v : value) : option key :=
  match v with
  | VNone => Some KNone
  | VBool b => Some (KBool b)
  | VInt n => Some (KInt n)
  | VStr s => Some (KStr s)
  | VList _ | VDict _ => None
  end.

(** Python's [==] on keys: [True == 1] and [False == 0], otherwise keys of
    different types differ. *)
Definition key_norm (k : key) : key :=
  match k with
  | KBool true => KInt 1
  | KBool false => KInt 0
  | _ => k
  end.

Definition key_eqb (a b : key) : bool :=
  match key_norm a, key_norm b with
  | KNone, KNone => true
  | KInt m, KInt n => Z.eqb m n
  | KStr s, KStr t => str_eqb s t
  | _, _ => false
  end.

(** ** Dicts *)

Section Dict.
Variable V : Type.

Definition dict := list (key * V).

(** [d.get(k)] *)
Fixpoint dict_get (d : dict) (k : key) : option V :=
  match d with
  | [] => None
  | (k', v) :: rest => if key_eqb k' k then Some v else dict_get rest k
  end.

(** [k in d] *)
Definition dict_contains (d : dict) (k : key) : bool :=
  match dict_get d k with Some _ => true | None => false end.

(** [d[k] = v]: an equal key keeps its place and its first key object and
    takes the new value; a new key goes last. *)
Fixpoint dict_set (d : dict) (k : key) (v : V) : dict :=
  match d with
  | [] => [(k, v)]
  | (k', v') :: rest =>
      if key_eqb k' k then (k', v) :: rest else (k', v') :: dict_set rest k v
  end.

(** [list(d)]: the keys in insertion order. *)
Definition dict_keys (d : dict) : list key := map fst d.

(** The keys of a dict are pairwise different under [==]. *)
Definition dict_wf (d : dict) : Prop := NoDup (map key_norm (dict_keys d)).
End Dict.

Arguments dict_get {V} d k.
Arguments dict_contains {V} d k.
Arguments dict_set {V} d k v.
Arguments dict_keys {V} d.
Arguments dict_wf {V} d.

(** ** Exceptions *)

Inductive exn :=
| KeyError (k : str)
| TypeError
(** [d[:30]] on a dict: a [TypeError] (unhashable slice) up to Python 3.11,
    a [KeyError] from 3.12 on, where slices hash. *)
| DictSliceError
(** Raised inside [requests], [azure.storage.blob], [pandas] or the JSON
    decoder. *)
| LibraryError (name : str).

Inductive Res (A : Type) :=
| Ok (a : A)
| Raise (e : exn).

Arguments Ok {A} a.
Arguments Raise {A} e.

Definition bindR {A B} (r : Res A) (f : A -> Res B) : Res B :=
  match r with
  | Ok a => f a
  | Raise e => Raise e
  end.

Notation "x <~ r ;; k" := (bindR r (fun x => k))
  (at level 100, r at next level, right associativity).

(** ** Subscripts, iteration, slices *)

(** [obj[name]] with a [str] subscript. *)
Definition getitem (obj : value) (name : str) : Res value :=
  match obj with
  | VDict d =>
      match dict_get d (KStr name) with
      | Some v => Ok v
      | None => Raise (KeyError name)
      end
  | _ => Raise TypeError
  end.

(** [for x in obj]: the elements of a list, the keys of a dict, the
    characters of a str. *)
Definition iterate (obj : value) : Res (list value) :=
  match obj with
  | VList l => Ok l
  | VDict d => Ok (map key_value (dict_keys d))
  | VStr s => Ok (map (fun c => VStr [c]) s)
  | _ => Raise TypeError
  end.

(** [obj[:n]] *)
Definition slice_to (n : nat) (obj : value) : Res value :=
  match obj with
  | VStr s => Ok (VStr (firstn n s))
  | VList l => Ok (VList (firstn n l))
  | VDict _ => Raise DictSliceError
  | _ => Raise TypeError
  end.

(** ** pandas *)

(** A cell of a row that [iterrows] yields. A float is carried by its
    [repr], the only thing the script observes of it. *)
Inductive cell :=
| CInt (n : Z)
| CFloat (repr : str)
| CBool (b : bool)
| CStr (s : str).

(** The frame [read_csv] returns: the header's column labels (made distinct
    by pandas) and the data rows. *)
Record DataFrame := {
  columns : list str;
  rows : list (list cell)
}.

(** A row as [iterrows] yields it: cells labelled by column. *)
Definition Series := list (str * cell).

Definition iterrows (df : DataFrame) : list Series :=
  map (fun r => combine (columns df) r) (rows df).

(** [row[label]] *)
Fixpoint series_getitem (row : Series) (label : str) : Res cell :=
  match row with
  | [] => Raise (KeyError label)
  | (l, c) :: rest => if str_eqb l label then Ok c else series_getitem rest label
  end.

(** [f'{c}'] *)
Definition format_cell (c : cell) : str :=
  match c with
  | CInt n => str_of_int n
  | CFloat r => r
  | CBool true => lit "True"
  | CBool false => lit "False"
  | CStr s => s
  end.

(** ** The world outside the script *)

Record Response := {
  status_code : Z;
  text : str;
  (** what [response.json()] returns or raises *)
  json : Res value
}.

Record World := {
  (** [requests.post(url, headers=..., json=...)]: a response, or an
      exception of [requests] (connection refused, timeout, ...) *)
  requests_post : str -> value -> value -> Res Response;
  (** the blob's content decoded as UTF-8, or the exception raised while
      connecting, downloading or decoding *)
  download_blob : str -> str -> str -> Res str;
  (** [pd.read_csv(StringIO(csv_data))] *)
  read_csv : str -> Res DataFrame
}.

Inductive event :=
| Print (line : str)
| Post (url : str) (headers : value) (body : value)
| Download (connection_string container_name blob_name : str).

Definition trace := list event.

(** A computation: what it printed and requested, and its value or the
    exception that ended it. *)
Definition M (A : Type) : Type := trace * Res A.

Definition ret {A} (a : A) : M A := ([], Ok a).

Definition bind {A B} (m : M A) (f : A -> M B) : M B :=
  match m with
  | (t, Ok a) => let (t', r) := f a in (t ++ t', r)
  | (t, Raise e) => (t, Raise e)
  end.

Notation "x <- m ;; k" := (bind m (fun x => k))
  (at level 100, m at next level, right associativity).
Notation "m ;;; k" := (bind m (fun _ => k))
  (at level 100, right associativity).

Definition lift {A} (r : Res A) : M A := ([], r).

Definition print (line : str) : M unit := ([Print line], Ok tt).

Record Args := {
  search_service_name : str;
  index_name : str;
  api_key : str;
  connection_string : str;
  container_name : str;
  file_name : str
}.

(** ** The script *)

Section Script.

(** [repr] of a [str] (quoting and escaping), which the script reaches
    only when it prints a list or dict. *)
Variable repr_str : str -> str.

Variable W : World.

Definition repr_key (k : key) : str :=
  match k with
  | KNone => lit "None"
  | KBool true => lit "True"
  | KBool false => lit "False"
  | KInt n => str_of_int n
  | KStr s => repr_str s
  end.

Fixpoint py_repr (v : value) : str :=
  match v with
  | VNone => lit "None"
  | VBool true => lit "True"
  | VBool false => lit "False"
  | VInt n => str_of_int n
  | VStr s => repr_str s
  | VList l => lit "[" ++ join (lit ", ") (map py_repr l) ++ lit "]"
  | VDict d =>
      lit "{"
      ++ join (lit ", ")
           (map (fun kv => repr_key (fst kv) ++ lit ": " ++ py_repr (snd kv)) d)
      ++ lit "}"
  end.

(** [f'{v}'] *)
Definition py_format (v : value) : str :=
  match v with
  | VStr s => s
  | _ => py_repr v
  end.

Definition post (url : str) (headers body : value) : M Response :=
  ([Post url headers body], requests_post W url headers body).

Definition request_headers (api_key : str) : value :=
  VDict [ (KStr (lit "Content-Type"), VStr (lit "application/json"));
          (KStr (lit "api-key"), VStr api_key) ].

(** *** Step 1: [search_index] *)

Definition search_url (base_url index_name : str) : str :=
  base_url ++ lit "/indexes/" ++ index_name
  ++ lit "/docs/search?api-version=2024-07-01".

Definition query : value :=
  VDict [ (KStr (lit "search"), VStr (lit "*"));
          (KStr (lit "select"), VStr (lit "id, content")) ].

(** [{doc["id"]: doc["content"] for doc in docs}], the items so far in
    [acc]. The key expression is evaluated before the value expression
    (Python 3.8 and later), and the key is hashed when the item is stored. *)
Fixpoint index_comprehension (docs : list value) (acc : dict value)
  : Res (dict value) :=
  match docs with
  | [] => Ok acc
  | doc :: rest =>
      k <~ getitem doc (lit "id") ;;
      v <~ getitem doc (lit "content") ;;
      match hashable k with
      | Some hk => index_comprehension rest (dict_set acc hk v)
      | None => Raise TypeError
      end
  end.

Definition search_error_line (response : Response) : str :=
  lit "Error during search: " ++ str_of_int (status_code response)
  ++ lit ", " ++ text response.

Definition search_index (base_url index_name api_key : str) : M (dict value) :=
  response <- post (search_url base_url index_name)
                   (request_headers api_key) query ;;
  if Z.eqb (status_code response) 200 then
    search_results <- lift (json response) ;;
    lift (results <~ getitem search_results (lit "value") ;;
          docs <~ iterate results ;;
          index_comprehension docs [])
  else
    print (search_error_line response) ;;;
    ret [].

(** *** Step 2: [load_csv_from_blob] *)

(** [{f'{row["id"]}': row["content"] for _, row in df.iterrows()}] *)
Fixpoint csv_comprehension (rws : list Series) (acc : dict cell)
  : Res (dict cell) :=
  match rws with
  | [] => Ok acc
  | row :: rest =>
      i <~ series_getitem row (lit "id") ;;
      c <~ series_getitem row (lit "content") ;;
      csv_comprehension rest (dict_set acc (KStr (format_cell i)) c)
  end.

Definition load_csv_from_blob (connection_string container_name blob_name : str)
  : M (dict cell) :=
  csv_data <- ([Download connection_string container_name blob_name],
               download_blob W connection_string container_name blob_name) ;;
  df <- lift (read_csv W csv_data) ;;
  lift (csv_comprehension (iterrows df) []).

(** *** Step 3: [delete_documents_from_index] *)

Definition delete_url (base_url index_name : str) : str :=
  base_url ++ lit "/indexes/" ++ index_name
  ++ lit "/docs/index?api-version=2024-07-01".

Definition candidate_line (doc_id : key) (preview : value) : str :=
  lit "ID: " ++ py_format (key_value doc_id) ++ lit ", "
  ++ py_format preview ++ lit "...".

(** The logging loop over the candidates. *)
Fixpoint log_candidates (doc_ids_to_delete : list key) (index_data : dict value)
  : M unit :=
  match doc_ids_to_delete with
  | [] => ret tt
  | doc_id :: rest =>
      let content :=
        match dict_get index_data doc_id with
        | Some c => c
        | None => VStr (lit "Content not available")
        end in
      preview <- lift (slice_to 30 content) ;;
      print (candidate_line doc_id preview) ;;;
      log_candidates rest index_data
  end.

Definition delete_action (doc_id : key) : value :=
  VDict [ (KStr (lit "@search.action"), VStr (lit "delete"));
          (KStr (lit "id"), key_value doc_id) ].

Definition delete_data (doc_ids_to_delete : list key) : value :=
  VDict [ (KStr (lit "value"), VList (map delete_action doc_ids_to_delete)) ].

Definition delete_success_line (doc_ids_to_delete : list key) : str :=
  lit "Successfully deleted "
  ++ str_of_int (Z.of_nat (List.length doc_ids_to_delete)) ++ lit " documents.".

Definition delete_error_line (response : Response) : str :=
  lit "Error during deletion: " ++ str_of_int (status_code response)
  ++ lit ", " ++ text response.

Definition delete_documents_from_index
  (base_url index_name api_key : str) (doc_ids_to_delete : list key)
  (index_data : dict value) : M unit :=
  print (lit "Deleting the following documents:") ;;;
  log_candidates doc_ids_to_delete index_data ;;;
  response <- post (delete_url base_url index_name)
                   (request_headers api_key) (delete_data doc_ids_to_delete) ;;
  if Z.eqb (status_code response) 200 then
    print (delete_success_line doc_ids_to_delete)
  else
    print (delete_error_line response).

(** *** [main] *)

(** [[doc_id for doc_id in index_data if doc_id not in csv_data]] *)
Definition missing_ids (index_data : dict value) (csv_data : dict cell)
  : list key :=
  filter (fun doc_id => negb (dict_contains csv_data doc_id))
         (dict_keys index_data).

Definition noop_line : str :=
  lit "No documents to delete. All records in the CSV are present in the index.".

Definition base_url_of (args : Args) : str :=
  lit "https://" ++ search_service_name args ++ lit ".search.windows.net".

Definition main (args : Args) : M unit :=
  let base_url := base_url_of args in
  index_data <- search_index base_url (index_name args) (api_key args) ;;
  csv_data <- load_csv_from_blob (connection_string args) (container_name args)
                                 (file_name args) ;;
  let ids := missing_ids index_data csv_data in
  match ids with
  | _ :: _ =>
      delete_documents_from_index base_url (index_name args) (api_key args)
                                  ids index_data
  | [] => print noop_line
  end.

End Script.

Arguments lit : simpl never.
Arguments str_of_int : simpl never.

(** ** Vocabulary of the properties *)

(** [l] keeps some elements of [m], in the order [m] has them. *)
Inductive Subseq {A : Type} : list A -> list A -> Prop :=
| Subseq_nil : Subseq [] []
| Subseq_skip x l m : Subseq l m -> Subseq l (x :: m)
| Subseq_take x l m : Subseq l m -> Subseq (x :: l) (x :: m).

Definition key_eq_dec (a b : key) : {a = b} + {a <> b}.
Proof.
  decide equality.
  - apply bool_dec.
  - apply Z.eq_dec.
  - apply (list_eq_dec N.eq_dec).
Defined.

(** The delete requests of a run: the POSTs to the index's [docs/index]
    endpoint. *)
Definition is_delete_request (base_url index_name : str) (e : event) : bool :=
  match e with
  | Post url _ _ => str_eqb url (delete_url base_url index_name)
  | _ => false
  end.

Definition delete_requests (base_url index_name : str) (t : trace) : trace :=
  filter (is_delete_request base_url index_name) t.

(** The lines a run printed. *)
Definition printed (t : trace) : list str :=
  flat_map (fun e => match e with Print l => [l] | _ => [] end) t.

(** The value stored last under a key equal to [k] in a sequence of
    (id, content) pairs. *)
Definition last_occurrence {V} (items : list (key * V)) (k : key) : option V :=
  dict_get (rev items) k.

(** A search result with both fields and a hashable id, as ([id], [content]). *)
Definition doc_fields (doc : value) : option (key * value) :=
  match getitem doc (lit "id"), getitem doc (lit "content") with
  | Ok i, Ok c =>
      match hashable i with
      | Some k => Some (k, c)
      | None => None
      end
  | _, _ => None
  end.

(** A CSV row with both cells, as ([f'{id}'], [content]). *)
Definition row_fields (row : Series) : option (key * cell) :=
  match series_getitem row (lit "id"), series_getitem row (lit "content") with
  | Ok i, Ok c => Some (KStr (format_cell i), c)
  | _, _ => None
  end.

(** All of [l] mapped by [f], when [f] is defined on every element. *)
Fixpoint map_all {A B} (f : A -> option B) (l : list A) : option (list B) :=
  match l with
  | [] => Some []
  | x :: rest =>
      match f x, map_all f rest with
      | Some y, Some ys => Some (y :: ys)
      | _, _ => None
      end
  end.

(** A JSON object whose [id], when it has one, is a scalar. *)
Definition is_document (doc : value) : bool :=
  match doc with
  | VDict d =>
      match dict_get d (KStr (lit "id")) with
      | Some (VList _) | Some (VDict _) => false
      | _ => true
      end
  | _ => false
  end.

Definition lacks_field (doc : value) (name : str) : bool :=
  match doc with
  | VDict d => negb (dict_contains d (KStr name))
  | _ => false
  end.

(** What [index_data.get(doc_id, "Content not available")] gives. *)
Definition content_of (index_data : dict value) (doc_id : key) : value :=
  match dict_get index_data doc_id with
  | Some c => c
  | None => VStr (lit "Content not available")
  end.

(** The contents [content[:30]] accepts without raising. *)
Definition previewable (content : value) : bool :=
  match content with
  | VStr _ | VList _ => true
  | _ => false
  end.

(** [None], a [bool] or an [int]. *)
Definition plain_scalar (content : value) : bool :=
  match content with
  | VNone | VBool _ | VInt _ => true
  | _ => false
  end.

(** The preview of a previewable content. *)
Definition preview_of (content : value) : value :=
  match content with
  | VStr s => VStr (firstn 30 s)
  | VList l => VList (firstn 30 l)
  | _ => content
  end.

(** The ways the Reference Loader fails, with the exception it raises. *)
Inductive LoaderFailure (W : World) (args : Args) : exn -> Prop :=
| Download_failure e :
    download_blob W (connection_string args) (container_name args)
                  (file_name args) = Raise e ->
    LoaderFailure W args e
| Parse_failure csv e :
    download_blob W (connection_string args) (container_name args)
                  (file_name args) = Ok csv ->
    read_csv W csv = Raise e ->
    LoaderFailure W args e
| Missing_id_column csv df :
    download_blob W (connection_string args) (container_name args)
                  (file_name args) = Ok csv ->
    read_csv W csv = Ok df ->
    ~ In (lit "id") (columns df) ->
    rows df <> [] ->
    LoaderFailure W args (KeyError (lit "id")).

(** ** Sample runs *)

Definition sample_args : Args := {|
  search_service_name := lit "svc";
  index_name := lit "docs";
  api_key := lit "key";
  connection_string := lit "UseDevelopmentStorage=true";
  container_name := lit "data";
  file_name := lit "reference.csv"
|}.

(** A world that answers the search request with [search], any other request
    with [delete], and holds a blob that parses to [frame]. *)
Definition sample_world (search delete : Res Response) (frame : Res DataFrame)
  : World := {|
  requests_post := fun url _ _ =>
    if str_eqb url (search_url (base_url_of sample_args) (index_name sample_args))
    then search else delete;
  download_blob := fun _ _ _ => Ok (lit "csv text");
  read_csv := fun _ => frame
|}.

Definition document (i c : value) : value :=
  VDict [ (KStr (lit "@search.score"), VInt 1);
          (KStr (lit "id"), i);
          (KStr (lit "content"), c) ].

Definition found (docs : list value) : Res Response :=
  Ok {| status_code := 200;
        text := lit "{...}";
        json := Ok (VDict [ (KStr (lit "@odata.context"), VStr (lit "ctx"));
                            (KStr (lit "value"), VList docs) ]) |}.

Definition answered (code : Z) (body : string) : Res Response :=
  Ok {| status_code := code;
        text := lit body;
        json := Raise (LibraryError (lit "JSONDecodeError")) |}.

Definition frame (cols : list string) (rws : list (list cell)) : Res DataFrame :=
  Ok {| columns := map lit cols; rows := rws |}.

(** One indexed document, and a blob whose header has no [id] column and
    which has no data row. *)
Definition header_only_world : World :=
  sample_world (found [document (VStr (lit "A")) (VStr (lit "x"))])
               (answered 200 "{}")
               (frame ["name"; "content"]%string []).

(** The same index, and a blob without [id] column that has a data row. *)
Definition missing_id_world : World :=
  sample_world (found [document (VStr (lit "A")) (VStr (lit "x"))])
               (answered 200 "{}")
               (frame ["name"; "content"]%string [[CStr (lit "A"); CStr (lit "x")]]).

(** The search service cannot be reached. *)
Definition unreachable_world : World :=
  sample_world (Raise (LibraryError (lit "ConnectionError")))
               (Raise (LibraryError (lit "ConnectionError")))
               (frame ["id"; "content"]%string [[CStr (lit "A"); CStr (lit "x")]]).

(** The search succeeds, the CSV holds none of the index ids, and the
    connection drops on the delete request. *)
Definition dropped_delete_world : World :=
  sample_world (found [document (VStr (lit "A")) (VStr (lit "x"))])
               (Raise (LibraryError (lit "ConnectionError")))
               (frame ["id"; "content"]%string [[CStr (lit "B"); CStr (lit "y")]]).

(** The search service answers 503. *)
Definition unavailable_world : World :=
  sample_world (answered 503 "Service Unavailable")
               (answered 200 "{}")
               (frame ["id"; "content"]%string [[CStr (lit "A"); CStr (lit "x")]]).

(** Index A and B, CSV with A only, and a delete request answered 403. *)
Definition forbidden_delete_world : World :=
  sample_world (found [document (VStr (lit "A")) (VStr (lit "x"));
                       document (VStr (lit "B")) (VStr (lit "y"))])
               (answered 403 "Forbidden")
               (frame ["id"; "content"]%string [[CStr (lit "A"); CStr (lit "x")]]).

(** Index and CSV hold the same ids. *)
Definition in_sync_world : World :=
  sample_world (found [document (VStr (lit "A")) (VStr (lit "x"));
                       document (VStr (lit "5")) (VStr (lit "y"))])
               (answered 200 "{}")
               (frame ["id"; "content"]%string
                      [[CStr (lit "A"); CStr (lit "x")]; [CInt 5; CStr (lit "y")]]).

(** The index holds B with a null content; the CSV holds A only. *)
Definition null_content_world : World :=
  sample_world (found [document (VStr (lit "B")) VNone])
               (answered 200 "{}")
               (frame ["id"; "content"]%string [[CStr (lit "A"); CStr (lit "x")]]).

(** The index holds B, whose content is a collection; the CSV holds A only. *)
Definition list_content_world : World :=
  sample_world (found [document (VStr (lit "B")) (VList [VInt 1; VInt 2])])
               (answered 200 "{}")
               (frame ["id"; "content"]%string [[CStr (lit "A"); CStr (lit "x")]]).

(** The id A comes twice in the search results and twice in the CSV. *)
Definition duplicate_ids_world : World :=
  sample_world (found [document (VStr (lit "A")) (VStr (lit "old"));
                       document (VStr (lit "B")) (VStr (lit "y"));
                       document (VStr (lit "A")) (VStr (lit "new"))])
               (answered 200 "{}")
               (frame ["id"; "content"]%string
                      [[CStr (lit "A"); CStr (lit "first")];
                       [CStr (lit "A"); CStr (lit "second")]]).

(** A 200 response whose body has no [value]. *)
Definition no_value_response : Response := {|
  status_code := 200;
  text := lit "{}";
  json := Ok (VDict [ (KStr (lit "@odata.context"), VStr (lit "ctx")) ])
|}.

Definition no_value_world : World :=
  sample_world (Ok no_value_response) (answered 200 "{}")
               (frame ["id"; "content"]%string []).

(** A 200 response whose second document has no [content]. *)
Definition no_content_world : World :=
  sample_world (found [document (VStr (lit "A")) (VStr (lit "x"));
                       VDict [ (KStr (lit "id"), VStr (lit "B")) ]])
               (answered 200 "{}")
               (frame ["id"; "content"]%string []).

(** The keys of a sequence in the order of their first occurrence, later
    keys equal to an earlier one dropped. *)
Fixpoint first_occurrences (ks : list key) : list key :=
  match ks with
  | [] => []
  | k :: rest => k :: filter (fun k' => negb (key_eqb k k')) (first_occurrences rest)
  end.

(** The ids a delete request names, in the order of its body. *)
Definition deleted_ids (e : event) : list value :=
  match e with
  | Post _ _ (VDict [(_, VList actions)]) =>
      flat_map (fun action =>
                  match getitem action (lit "id") with
                  | Ok i => [i]
                  | Raise _ => []
                  end) actions
  | _ => []
  end.

(** Index A, B and C; the CSV holds A only; the delete request is answered 200. *)
Definition out_of_sync_world : World :=
  sample_world (found [document (VStr (lit "A")) (VStr (lit "x"));
                       document (VStr (lit "B")) (VStr (lit "y"));
                       document (VInt 7) (VStr (lit "z"))])
               (answered 200 "{}")
               (frame ["id"; "content"]%string
                      [[CStr (lit "A"); CStr (lit "x")]; [CInt 7; CStr (lit "z")]]).

(** A 200 response whose body is not JSON. *)
Definition not_json_world : World :=
  sample_world (answered 200 "<html>") (answered 200 "{}")
               (frame ["id"; "content"]%string [[CStr (lit "A"); CStr (lit "x")]]).

(** A 200 response with no result. *)
Definition empty_index_world : World :=
  sample_world (found []) (answered 200 "{}")
               (frame ["id"; "content"]%string [[CStr (lit "A"); CStr (lit "x")]]).

(** A blob with an [id] column, no [content] column and one row. *)
Definition missing_content_world : World :=
  sample_world (found [document (VStr (lit "A")) (VStr (lit "x"))])
               (answered 200 "{}")
               (frame ["id"; "title"]%string [[CStr (lit "A"); CStr (lit "x")]]).

(** A 200 response whose body is a JSON array. *)
Definition array_body_world : World :=
  sample_world (Ok {| status_code := 200; text := lit "[]"; json := Ok (VList []) |})
               (answered 200 "{}")
               (frame ["id"; "content"]%string []).

(** A 200 response whose second result has a list for id. *)
Definition list_id_world : World :=
  sample_world (found [document (VStr (lit "A")) (VStr (lit "x"));
                       document (VList [VInt 1]) (VStr (lit "y"))])
               (answered 200 "{}")
               (frame ["id"; "content"]%string []).


(** A 200 response whose first result is the number 5 and whose second
    result has no [content]. *)
Definition number_result_world : World :=
  sample_world (found [VInt 5; VDict [ (KStr (lit "id"), VStr (lit "B")) ]])
               (answered 200 "{}")
               (frame ["id"; "content"]%string []).

(** A 200 response whose first result has a list for id and whose second
    result has no [content]. *)
Definition list_id_first_world : World :=
  sample_world (found [document (VList [VInt 1]) (VStr (lit "y"));
                       VDict [ (KStr (lit "id"), VStr (lit "B")) ]])
               (answered 200 "{}")
               (frame ["id"; "content"]%string []).

(** * Properties *)

(** ** Strings and keys *)

Lemma str_eqb_eq (a b : str) : str_eqb a b = true <-> a = b.
Proof.
  revert b; induction a as [|x a IH]; intros [|y b]; simpl;
    try (split; [discriminate | discriminate]).
  - split; reflexivity.
  - rewrite andb_true_iff, N.eqb_eq, IH. split.
    + intros [-> ->]. reflexivity.
    + intros H. inversion H. split; reflexivity.
Qed.

Lemma str_eqb_refl (a : str) : str_eqb a a = true.
Proof. now apply str_eqb_eq. Qed.

Lemma str_eqb_neq (a b : str) : str_eqb a b = false <-> a <> b.
Proof.
  split.
  - intros H E. apply str_eqb_eq in E. congruence.
  - intros H. destruct (str_eqb a b) eqn:E; [|reflexivity].
    apply str_eqb_eq in E. contradiction.
Qed.

Lemma key_eqb_norm (a b : key) : key_eqb a b = true <-> key_norm a = key_norm b.
Proof.
  unfold key_eqb.
  destruct a as [|[|]|m|s], b as [|[|]|n|t]; cbn [key_norm]; split; intros H;
    try discriminate; try reflexivity;
    try (apply Z.eqb_eq in H; congruence);
    try (apply str_eqb_eq in H; congruence);
    inversion H; subst; first [apply Z.eqb_refl | apply str_eqb_refl].
Qed.

Lemma key_eqb_refl (a : key) : key_eqb a a = true.
Proof. now apply key_eqb_norm. Qed.

Lemma key_eqb_sym (a b : key) : key_eqb a b = key_eqb b a.
Proof.
  destruct (key_eqb a b) eqn:E1, (key_eqb b a) eqn:E2; try reflexivity.
  - apply key_eqb_norm in E1. symmetry in E1. apply key_eqb_norm in E1. congruence.
  - apply key_eqb_norm in E2. symmetry in E2. apply key_eqb_norm in E2. congruence.
Qed.

Lemma key_eqb_compat (a b c : key) :
  key_eqb a b = true -> key_eqb a c = key_eqb b c.
Proof.
  intros H. apply key_eqb_norm in H.
  destruct (key_eqb a c) eqn:E1, (key_eqb b c) eqn:E2; try reflexivity.
  - apply key_eqb_norm in E1. rewrite H in E1. apply key_eqb_norm in E1. congruence.
  - apply key_eqb_norm in E2. rewrite <- H in E2. apply key_eqb_norm in E2. congruence.
Qed.

Lemma key_eqb_str (s t : str) : key_eqb (KStr s) (KStr t) = str_eqb s t.
Proof. reflexivity. Qed.

(** ** Dicts *)

Section DictFacts.
Variable V : Type.
Implicit Types (d : dict V) (k : key) (v : V).

Lemma dict_get_set d k v k' :
  dict_get (dict_set d k v) k' = if key_eqb k k' then Some v else dict_get d k'.
Proof.
  induction d as [|[k0 v0] d IH]; simpl.
  - reflexivity.
  - destruct (key_eqb k0 k) eqn:E; simpl.
    + rewrite (key_eqb_compat _ _ k' E). now destruct (key_eqb k k').
    + rewrite IH. destruct (key_eqb k0 k') eqn:E'; [|reflexivity].
      destruct (key_eqb k k') eqn:E''; [|reflexivity].
      rewrite key_eqb_sym in E''.
      rewrite (key_eqb_compat _ _ k E') in E. congruence.
Qed.

Lemma dict_contains_set d k v k' :
  dict_contains (dict_set d k v) k' = key_eqb k k' || dict_contains d k'.
Proof.
  unfold dict_contains. rewrite dict_get_set. now destruct (key_eqb k k').
Qed.

Lemma dict_contains_In d k :
  dict_contains d k = true <-> In (key_norm k) (map key_norm (dict_keys d)).
Proof.
  unfold dict_contains.
  induction d as [|[k0 v0] d IH]; simpl.
  - split; [discriminate | tauto].
  - destruct (key_eqb k0 k) eqn:E.
    + apply key_eqb_norm in E. split; auto.
    + rewrite IH. split; auto. intros [H|H]; auto.
      apply key_eqb_norm in H. congruence.
Qed.

Lemma dict_contains_key d k : In k (dict_keys d) -> dict_contains d k = true.
Proof.
  intros H. apply dict_contains_In. now apply in_map.
Qed.

Lemma dict_keys_set d k v :
  map key_norm (dict_keys (dict_set d k v)) =
  if dict_contains d k then map key_norm (dict_keys d)
  else map key_norm (dict_keys d) ++ [key_norm k].
Proof.
  unfold dict_contains.
  induction d as [|[k0 v0] d IH]; simpl.
  - reflexivity.
  - destruct (key_eqb k0 k) eqn:E; simpl.
    + reflexivity.
    + rewrite IH. now destruct (dict_get d k).
Qed.

Lemma dict_wf_nil : dict_wf (@nil (key * V)).
Proof. constructor. Qed.

Lemma dict_wf_set d k v : dict_wf d -> dict_wf (dict_set d k v).
Proof.
  unfold dict_wf. intros H. rewrite dict_keys_set.
  destruct (dict_contains d k) eqn:E; [assumption|].
  apply NoDup_rev in H. rewrite <- (rev_involutive (_ ++ _)).
  apply NoDup_rev. rewrite rev_app_distr. simpl. constructor; [|assumption].
  rewrite <- in_rev. intros Hin. apply dict_contains_In in Hin. congruence.
Qed.

(** Storing a sequence of items one after the other. *)
Lemma dict_get_fold (items : list (key * V)) d k :
  dict_get (fold_left (fun acc kv => dict_set acc (fst kv) (snd kv)) items d) k =
  match last_occurrence items k with
  | Some v => Some v
  | None => dict_get d k
  end.
Proof.
  unfold last_occurrence.
  revert d; induction items as [|[k0 v0] items IH]; intros d; simpl.
  - reflexivity.
  - rewrite IH. clear IH.
    assert (G : forall (l1 l2 : dict V),
               dict_get (l1 ++ l2) k =
               match dict_get l1 k with Some v => Some v | None => dict_get l2 k end).
    { induction l1 as [|[a b] l1 IHl]; intros l2; simpl; [reflexivity|].
      destruct (key_eqb a k); [reflexivity | apply IHl]. }
    rewrite G. destruct (dict_get (rev items) k); [reflexivity|].
    simpl. rewrite dict_get_set. now destruct (key_eqb k0 k).
Qed.

Lemma dict_wf_fold (items : list (key * V)) d :
  dict_wf d ->
  dict_wf (fold_left (fun acc kv => dict_set acc (fst kv) (snd kv)) items d).
Proof.
  revert d; induction items as [|[k0 v0] items IH]; intros d H; simpl.
  - assumption.
  - apply IH. now apply dict_wf_set.
Qed.

End DictFacts.

(** ** The two endpoints *)

Lemma search_url_not_delete_url (base_url index_name : str) :
  search_url base_url index_name <> delete_url base_url index_name.
Proof.
  unfold search_url, delete_url. intros H.
  repeat apply app_inv_head in H. cbv in H. discriminate.
Qed.

Lemma is_delete_request_search base_url index_name headers body :
  is_delete_request base_url index_name
    (Post (search_url base_url index_name) headers body) = false.
Proof.
  simpl. apply str_eqb_neq, search_url_not_delete_url.
Qed.

Lemma is_delete_request_delete base_url index_name headers body :
  is_delete_request base_url index_name
    (Post (delete_url base_url index_name) headers body) = true.
Proof. simpl. apply str_eqb_refl. Qed.

Lemma delete_requests_app base_url index_name (t1 t2 : trace) :
  delete_requests base_url index_name (t1 ++ t2) =
  delete_requests base_url index_name t1 ++ delete_requests base_url index_name t2.
Proof. apply filter_app. Qed.

Lemma delete_requests_prints base_url index_name (lines : list str) :
  delete_requests base_url index_name (map Print lines) = [].
Proof. induction lines; simpl; auto. Qed.

(** ** The Index Reader, case by case *)

Section SearchIndex.
Variable W : World.
Variables base_url index_name api_key : str.

Let request :=
  Post (search_url base_url index_name) (request_headers api_key) query.
Let answer :=
  requests_post W (search_url base_url index_name) (request_headers api_key) query.

Lemma search_index_transport_error e :
  answer = Raise e ->
  search_index W base_url index_name api_key = ([request], Raise e).
Proof.
  unfold answer, search_index, bind, post. intros ->. reflexivity.
Qed.

Lemma search_index_failure response :
  answer = Ok response ->
  status_code response <> 200%Z ->
  search_index W base_url index_name api_key =
  ([request; Print (search_error_line response)], Ok []).
Proof.
  unfold answer, search_index, bind, post. intros -> H.
  apply Z.eqb_neq in H. rewrite H. reflexivity.
Qed.

Lemma search_index_success response :
  answer = Ok response ->
  status_code response = 200%Z ->
  search_index W base_url index_name api_key =
  ([request],
   search_results <~ json response ;;
   results <~ getitem search_results (lit "value") ;;
   docs <~ iterate results ;;
   index_comprehension docs []).
Proof.
  unfold answer, search_index, bind, post, lift. intros -> H.
  apply Z.eqb_eq in H. rewrite H.
  destruct (json response) as [v|e]; reflexivity.
Qed.

Lemma search_index_trace :
  exists lines,
    fst (search_index W base_url index_name api_key) = request :: map Print lines.
Proof.
  destruct answer as [response|e] eqn:E.
  - destruct (Z.eq_dec (status_code response) 200) as [H|H].
    + rewrite (search_index_success E H). now exists [].
    + rewrite (search_index_failure E H). now eexists [_].
  - rewrite (search_index_transport_error E). now exists [].
Qed.

Lemma search_index_no_delete :
  delete_requests base_url index_name
    (fst (search_index W base_url index_name api_key)) = [].
Proof.
  destruct search_index_trace as [lines ->].
  unfold delete_requests. cbn [filter]. unfold request.
  rewrite is_delete_request_search. apply delete_requests_prints.
Qed.

End SearchIndex.

(** ** The Reference Loader *)

Lemma load_csv_from_blob_eq (W : World) (conn container blob : str) :
  load_csv_from_blob W conn container blob =
  ([Download conn container blob],
   csv_data <~ download_blob W conn container blob ;;
   df <~ read_csv W csv_data ;;
   csv_comprehension (iterrows df) []).
Proof.
  unfold load_csv_from_blob, bind, lift.
  destruct (download_blob W conn container blob) as [csv|e]; [|reflexivity].
  simpl. destruct (read_csv W csv) as [df|e]; reflexivity.
Qed.

Lemma csv_comprehension_fields (rws : list Series) (items : list (key * cell)) acc :
  map_all row_fields rws = Some items ->
  csv_comprehension rws acc =
  Ok (fold_left (fun d kv => dict_set d (fst kv) (snd kv)) items acc).
Proof.
  revert items acc; induction rws as [|row rws IH]; intros items acc; simpl.
  - intros [= <-]. reflexivity.
  - destruct (row_fields row) as [[k c]|] eqn:Er; [|discriminate].
    destruct (map_all row_fields rws) as [rest|] eqn:E; [|discriminate].
    intros [= <-]. unfold row_fields in Er.
    destruct (series_getitem row (lit "id")) as [i|e]; [|discriminate].
    destruct (series_getitem row (lit "content")) as [c'|e]; [|discriminate].
    inversion Er; subst. simpl. now apply IH.
Qed.

Lemma series_getitem_missing (cols : list str) (r : list cell) (label : str) :
  ~ In label cols ->
  series_getitem (combine cols r) label = Raise (KeyError label).
Proof.
  revert r; induction cols as [|c cols IH]; intros r H; simpl.
  - reflexivity.
  - destruct r as [|x r]; simpl; [reflexivity|].
    destruct (str_eqb c label) eqn:E.
    + apply str_eqb_eq in E. subst. exfalso. apply H. now left.
    + apply IH. intros Hin. apply H. now right.
Qed.

(** ** The Index Reader's comprehension *)

Lemma index_comprehension_fields (docs : list value) (items : list (key * value)) acc :
  map_all doc_fields docs = Some items ->
  index_comprehension docs acc =
  Ok (fold_left (fun d kv => dict_set d (fst kv) (snd kv)) items acc).
Proof.
  revert items acc; induction docs as [|doc docs IH]; intros items acc; simpl.
  - intros [= <-]. reflexivity.
  - destruct (doc_fields doc) as [[k c]|] eqn:Ed; [|discriminate].
    destruct (map_all doc_fields docs) as [rest|] eqn:E; [|discriminate].
    intros [= <-]. unfold doc_fields in Ed.
    destruct (getitem doc (lit "id")) as [i|e]; [|discriminate].
    destruct (getitem doc (lit "content")) as [c'|e]; [|discriminate].
    simpl. destruct (hashable i) as [k'|]; [|discriminate].
    inversion Ed; subst. simpl. now apply IH.
Qed.

Lemma index_comprehension_missing_field (docs : list value) acc :
  forallb is_document docs = true ->
  existsb (fun doc => lacks_field doc (lit "id") || lacks_field doc (lit "content"))
          docs = true ->
  index_comprehension docs acc = Raise (KeyError (lit "id")) \/
  index_comprehension docs acc = Raise (KeyError (lit "content")).
Proof.
  revert acc; induction docs as [|doc docs IH]; intros acc Hdoc Hlack.
  - discriminate.
  - cbn [forallb existsb] in Hdoc, Hlack.
    apply andb_true_iff in Hdoc as [Hd Hdocs].
    destruct doc as [| | | | |d]; try discriminate.
    cbn [index_comprehension getitem].
    unfold is_document in Hd. unfold lacks_field, dict_contains in Hlack.
    destruct (dict_get d (KStr (lit "id"))) as [i|]; [|now left].
    destruct (dict_get d (KStr (lit "content"))) as [c|]; [|now right].
    cbn [bindR negb orb] in *.
    destruct i; try discriminate; cbn [hashable]; now apply IH.
Qed.

Lemma index_comprehension_app (pre rest : list value) (items : list (key * value))
  (acc : dict value) :
  map_all doc_fields pre = Some items ->
  index_comprehension (pre ++ rest) acc =
  index_comprehension rest
    (fold_left (fun d kv => dict_set d (fst kv) (snd kv)) items acc).
Proof.
  revert items acc; induction pre as [|doc pre IH]; intros items acc; simpl.
  - intros [= <-]. reflexivity.
  - destruct (doc_fields doc) as [[k c]|] eqn:Ed; [|discriminate].
    destruct (map_all doc_fields pre) as [its|] eqn:E; [|discriminate].
    intros [= <-]. unfold doc_fields in Ed.
    destruct (getitem doc (lit "id")) as [i|e]; [|discriminate].
    destruct (getitem doc (lit "content")) as [c'|e]; [|discriminate].
    simpl. destruct (hashable i) as [k'|]; [|discriminate].
    inversion Ed; subst. simpl. now apply IH.
Qed.

(** ** The logging loop *)

Section Logging.
Variable repr_str : str -> str.
Variable index_data : dict value.

Let line (doc_id : key) : event :=
  Print (candidate_line repr_str doc_id (preview_of (content_of index_data doc_id))).

Lemma slice_to_previewable (content : value) :
  previewable content = true -> slice_to 30 content = Ok (preview_of content).
Proof. destruct content; simpl; congruence. Qed.

Lemma slice_to_plain_scalar (content : value) :
  plain_scalar content = true -> slice_to 30 content = Raise TypeError.
Proof. destruct content; simpl; congruence. Qed.

Lemma log_candidates_ok (ids : list key) :
  forallb (fun k => previewable (content_of index_data k)) ids = true ->
  log_candidates repr_str ids index_data = (map line ids, Ok tt).
Proof.
  induction ids as [|k ids IH]; cbn [forallb log_candidates map].
  - reflexivity.
  - intros H. apply andb_true_iff in H as [Hk Hids].
    fold (content_of index_data k).
    rewrite (slice_to_previewable _ Hk), (IH Hids). reflexivity.
Qed.

Lemma log_candidates_raise (pre post : list key) (k : key) (e : exn) :
  forallb (fun k => previewable (content_of index_data k)) pre = true ->
  slice_to 30 (content_of index_data k) = Raise e ->
  log_candidates repr_str (pre ++ k :: post) index_data = (map line pre, Raise e).
Proof.
  induction pre as [|p pre IH]; cbn [forallb log_candidates map app].
  - intros _ H. fold (content_of index_data k). rewrite H. reflexivity.
  - intros H Hk. apply andb_true_iff in H as [Hp Hpre].
    fold (content_of index_data p).
    rewrite (slice_to_previewable _ Hp), (IH Hpre Hk). reflexivity.
Qed.

End Logging.

(** ** The delete stage *)

Section Delete.
Variable repr_str : str -> str.
Variable W : World.
Variables base_url index_name api_key : str.
Variable doc_ids_to_delete : list key.
Variable index_data : dict value.

Let request :=
  Post (delete_url base_url index_name) (request_headers api_key)
       (delete_data doc_ids_to_delete).
Let answer :=
  requests_post W (delete_url base_url index_name) (request_headers api_key)
                (delete_data doc_ids_to_delete).
Let heading := Print (lit "Deleting the following documents:").

Lemma delete_documents_logging_raises t e :
  log_candidates repr_str doc_ids_to_delete index_data = (t, Raise e) ->
  delete_documents_from_index repr_str W base_url index_name api_key
    doc_ids_to_delete index_data = (heading :: t, Raise e).
Proof.
  unfold delete_documents_from_index, bind, print. intros ->. reflexivity.
Qed.

Lemma delete_documents_sends t :
  log_candidates repr_str doc_ids_to_delete index_data = (t, Ok tt) ->
  delete_documents_from_index repr_str W base_url index_name api_key
    doc_ids_to_delete index_data =
  match answer with
  | Ok response =>
      (heading :: t ++
       [request;
        Print (if Z.eqb (status_code response) 200
               then delete_success_line doc_ids_to_delete
               else delete_error_line response)],
       Ok tt)
  | Raise e => (heading :: t ++ [request], Raise e)
  end.
Proof.
  unfold delete_documents_from_index, bind, print, post, answer. intros ->.
  destruct (requests_post W _ _ _) as [response|e]; [|reflexivity].
  destruct (Z.eqb (status_code response) 200); reflexivity.
Qed.

End Delete.

(** ** [main], stage by stage *)

Section Main.
Variable repr_str : str -> str.
Variable W : World.
Variable args : Args.

Let searched := search_index W (base_url_of args) (index_name args) (api_key args).
Let download :=
  Download (connection_string args) (container_name args) (file_name args).
Let loaded :=
  csv_data <~ download_blob W (connection_string args) (container_name args)
                            (file_name args) ;;
  df <~ read_csv W csv_data ;;
  csv_comprehension (iterrows df) [].

Lemma main_search_raises t e :
  searched = (t, Raise e) -> main repr_str W args = (t, Raise e).
Proof.
  unfold searched, main, bind. intros ->. reflexivity.
Qed.

Lemma main_loader_raises t index_data e :
  searched = (t, Ok index_data) ->
  loaded = Raise e ->
  main repr_str W args = (t ++ [download], Raise e).
Proof.
  unfold searched, loaded, main, bind. intros -> H.
  rewrite load_csv_from_blob_eq, H. reflexivity.
Qed.

Lemma main_reconciles t index_data csv_data :
  searched = (t, Ok index_data) ->
  loaded = Ok csv_data ->
  main repr_str W args =
  match missing_ids index_data csv_data with
  | [] => (t ++ [download; Print noop_line], Ok tt)
  | ids =>
      let (t', r) :=
        delete_documents_from_index repr_str W (base_url_of args)
          (index_name args) (api_key args) ids index_data in
      (t ++ download :: t', r)
  end.
Proof.
  unfold searched, loaded, main, bind. intros -> H.
  rewrite load_csv_from_blob_eq, H.
  destruct (missing_ids index_data csv_data) as [|k ids]; [reflexivity|].
  destruct (delete_documents_from_index _ _ _ _ _ _ _) as [t' r]. reflexivity.
Qed.

End Main.

(** ** Subsequences and filters *)

Section FilterSpec.
Variable A : Type.
Variable eq_dec : forall a b : A, {a = b} + {a <> b}.
Variable p : A -> bool.

Lemma Subseq_filter (m : list A) : Subseq (filter p m) m.
Proof.
  induction m as [|x m IH]; simpl.
  - constructor.
  - destruct (p x); now constructor.
Qed.

Lemma Subseq_count (l m : list A) (x : A) :
  Subseq l m -> count_occ eq_dec l x <= count_occ eq_dec m x.
Proof.
  induction 1 as [|y l m _ IH|y l m _ IH]; simpl.
  - lia.
  - destruct (eq_dec y x); lia.
  - destruct (eq_dec y x); lia.
Qed.

Lemma count_occ_filter (m : list A) (x : A) :
  count_occ eq_dec (filter p m) x = if p x then count_occ eq_dec m x else 0.
Proof.
  induction m as [|y m IH]; simpl.
  - now destruct (p x).
  - destruct (p y) eqn:Ey; simpl; destruct (eq_dec y x) as [->|N]; rewrite IH.
    + now rewrite Ey.
    + reflexivity.
    + now rewrite Ey.
    + reflexivity.
Qed.

(** A filter is the only subsequence that keeps every occurrence of the
    elements it selects and none of the others. *)
Lemma filter_unique (l m : list A) :
  Subseq l m ->
  (forall x, count_occ eq_dec l x = if p x then count_occ eq_dec m x else 0) ->
  l = filter p m.
Proof.
  induction 1 as [|y l m S IH|y l m S IH]; intros C; simpl.
  - reflexivity.
  - assert (Ey : p y = false).
    { destruct (p y) eqn:Ey; [|reflexivity].
      pose proof (C y) as Cy. rewrite Ey in Cy. simpl in Cy.
      destruct (eq_dec y y) as [_|N]; [|contradiction].
      pose proof (Subseq_count y S). lia. }
    rewrite Ey. apply IH. intros x. rewrite (C x). simpl.
    destruct (eq_dec y x) as [->|N]; [now rewrite Ey | reflexivity].
  - assert (Ey : p y = true).
    { destruct (p y) eqn:Ey; [reflexivity|].
      pose proof (C y) as Cy. rewrite Ey in Cy. simpl in Cy.
      destruct (eq_dec y y) as [_|N]; [discriminate | contradiction]. }
    rewrite Ey. f_equal. apply IH. intros x. pose proof (C x) as Cx.
    simpl in Cx. destruct (eq_dec y x) as [->|N]; [|exact Cx].
    rewrite Ey in *. lia.
Qed.

End FilterSpec.

(** ** The Reconciler *)

(** C1: the deletion set is the list of the index snapshot's keys that are
    not keys of the reference snapshot, in the index snapshot's order: it is
    the one subsequence of the index keys that holds every key absent from
    the reference and no other; index {A: x, B: y} against reference {A: x}
    gives [B]. *)
Theorem deletion_set_is_index_minus_reference :
  (forall (index_data : dict value) (csv_data : dict cell) (l : list key),
      l = missing_ids index_data csv_data <->
      Subseq l (dict_keys index_data) /\
      forall k, count_occ key_eq_dec l k =
                if dict_contains csv_data k then 0
                else count_occ key_eq_dec (dict_keys index_data) k)
  /\ (forall (index_data : dict value) (csv_data : dict cell) (k : key),
         In k (missing_ids index_data csv_data) <->
         In k (dict_keys index_data) /\ dict_contains csv_data k = false)
  /\ missing_ids [ (KStr (lit "A"), VStr (lit "x")); (KStr (lit "B"), VStr (lit "y")) ]
                 [ (KStr (lit "A"), CStr (lit "x")) ]
     = [ KStr (lit "B") ].
Proof.
  split; [|split].
  - intros index_data csv_data l. unfold missing_ids. split.
    + intros ->. split; [apply Subseq_filter|].
      intros k. rewrite count_occ_filter. now destruct (dict_contains csv_data k).
    + intros [S C]. apply (filter_unique key_eq_dec); [exact S|].
      intros k. rewrite C. now destruct (dict_contains csv_data k).
  - intros index_data csv_data k. unfold missing_ids.
    rewrite filter_In, negb_true_iff. reflexivity.
  - reflexivity.
Qed.

Lemma missing_ids_nil (index_data : dict value) (csv_data : dict cell) :
  (forall k, In k (dict_keys index_data) -> dict_contains csv_data k = true) ->
  missing_ids index_data csv_data = [].
Proof.
  unfold missing_ids. induction (dict_keys index_data) as [|k ks IH]; intros H.
  - reflexivity.
  - simpl. rewrite (H k (or_introl eq_refl)). simpl.
    apply IH. intros k' Hk'. apply H. now right.
Qed.

Lemma loaded_ok (W : World) (conn container blob : str) t (csv_data : dict cell) :
  load_csv_from_blob W conn container blob = (t, Ok csv_data) ->
  t = [Download conn container blob] /\
  (text <~ download_blob W conn container blob ;;
   df <~ read_csv W text ;;
   csv_comprehension (iterrows df) []) = Ok csv_data.
Proof.
  rewrite load_csv_from_blob_eq. intros H. inversion H. split; reflexivity.
Qed.

(** C2: a search response with a status other than 200 is logged with its
    status and body and [search_index] returns the empty mapping; the run
    then issues no delete request, and it ends as the Reference Loader ends:
    normally, after the no-op message, when the loader returns. *)
Theorem failed_search_gives_empty_index_and_no_deletion
  (repr_str : str -> str) (W : World) (args : Args) (response : Response) :
  requests_post W (search_url (base_url_of args) (index_name args))
                (request_headers (api_key args)) query = Ok response ->
  status_code response <> 200%Z ->
  let request :=
    Post (search_url (base_url_of args) (index_name args))
         (request_headers (api_key args)) query in
  let logged :=
    Print (lit "Error during search: " ++ str_of_int (status_code response)
           ++ lit ", " ++ text response) in
  let download :=
    Download (connection_string args) (container_name args) (file_name args) in
  search_index W (base_url_of args) (index_name args) (api_key args)
  = ([request; logged], Ok [])
  /\ delete_requests (base_url_of args) (index_name args)
       (fst (main repr_str W args)) = []
  /\ main repr_str W args =
     match snd (load_csv_from_blob W (connection_string args)
                  (container_name args) (file_name args)) with
     | Ok _ => ([request; logged; download; Print noop_line], Ok tt)
     | Raise e => ([request; logged; download], Raise e)
     end.
Proof.
  intros Hpost Hcode request logged download.
  pose proof (search_index_failure _ _ _ _ Hpost Hcode) as Hs.
  assert (Hmain : main repr_str W args =
     match snd (load_csv_from_blob W (connection_string args)
                  (container_name args) (file_name args)) with
     | Ok _ => ([request; logged; download; Print noop_line], Ok tt)
     | Raise e => ([request; logged; download], Raise e)
     end).
  { rewrite load_csv_from_blob_eq. cbn [snd].
    destruct (bindR _ _) as [csv_data|e] eqn:Hl.
    - rewrite (main_reconciles repr_str _ _ Hs Hl). reflexivity.
    - rewrite (main_loader_raises repr_str _ _ Hs Hl). reflexivity. }
  split; [exact Hs | split; [|exact Hmain]].
  rewrite Hmain.
  destruct (snd _); cbn [fst delete_requests filter];
    unfold request; rewrite is_delete_request_search; reflexivity.
Qed.

(** C5: when every id of the index snapshot is a key of the reference
    snapshot, the deletion set is empty, the run prints the no-op message
    "No documents to delete. All records in the CSV are present in the
    index." and ends, and its trace holds no delete request. *)
Theorem identical_snapshots_delete_nothing
  (repr_str : str -> str) (W : World) (args : Args)
  (t t' : trace) (index_data : dict value) (csv_data : dict cell) :
  search_index W (base_url_of args) (index_name args) (api_key args)
  = (t, Ok index_data) ->
  load_csv_from_blob W (connection_string args) (container_name args)
                     (file_name args) = (t', Ok csv_data) ->
  (forall k, In k (dict_keys index_data) -> dict_contains csv_data k = true) ->
  missing_ids index_data csv_data = []
  /\ main repr_str W args
     = (t ++ t'
        ++ [ Print (lit "No documents to delete. All records in the CSV are present in the index.") ],
        Ok tt)
  /\ delete_requests (base_url_of args) (index_name args)
       (fst (main repr_str W args)) = [].
Proof.
  intros Hs Hl Hall.
  pose proof (missing_ids_nil _ _ Hall) as Hnil.
  apply loaded_ok in Hl as [-> Hl].
  pose proof (main_reconciles repr_str _ _ Hs Hl) as Hmain.
  rewrite Hnil in Hmain.
  split; [exact Hnil | split; [exact Hmain|]].
  rewrite Hmain. cbn [fst]. rewrite delete_requests_app.
  pose proof (search_index_no_delete W (base_url_of args) (index_name args)
                (api_key args)) as Hno.
  rewrite Hs in Hno. cbn [fst] in Hno. rewrite Hno. reflexivity.
Qed.

Lemma failed_search_witness :
  main (fun s => s) unavailable_world sample_args =
  ([ Post (search_url (base_url_of sample_args) (index_name sample_args))
          (request_headers (api_key sample_args)) query;
     Print (lit "Error during search: 503, Service Unavailable");
     Download (connection_string sample_args) (container_name sample_args)
              (file_name sample_args);
     Print noop_line ],
   Ok tt).
Proof.
  refine (proj2 (proj2
    (failed_search_gives_empty_index_and_no_deletion (fun s => s)
       unavailable_world sample_args
       (response := {| status_code := 503;
                       text := lit "Service Unavailable";
                       json := Raise (LibraryError (lit "JSONDecodeError")) |})
       _ _))).
  - reflexivity.
  - simpl. lia.
Defined.

Lemma identical_snapshots_witness :
  main (fun s => s) in_sync_world sample_args =
  ([ Post (search_url (base_url_of sample_args) (index_name sample_args))
          (request_headers (api_key sample_args)) query;
     Download (connection_string sample_args) (container_name sample_args)
              (file_name sample_args);
     Print (lit "No documents to delete. All records in the CSV are present in the index.") ],
   Ok tt).
Proof.
  refine (proj1 (proj2
    (identical_snapshots_delete_nothing (fun s => s) in_sync_world sample_args
       (t := [Post (search_url (base_url_of sample_args) (index_name sample_args))
                   (request_headers (api_key sample_args)) query])
       (t' := [Download (connection_string sample_args)
                        (container_name sample_args) (file_name sample_args)])
       (index_data := [ (KStr (lit "A"), VStr (lit "x"));
                        (KStr (lit "5"), VStr (lit "y")) ])
       (csv_data := [ (KStr (lit "A"), CStr (lit "x"));
                      (KStr (lit "5"), CStr (lit "y")) ])
       _ _ _))).
  - vm_compute. reflexivity.
  - vm_compute. reflexivity.
  - intros k [<-|[<-|[]]]; reflexivity.
Defined.

(** ** Failures of the Reference Loader *)

Lemma loader_failure_raises (W : World) (args : Args) (e : exn) :
  LoaderFailure W args e ->
  (csv_data <~ download_blob W (connection_string args) (container_name args)
                             (file_name args) ;;
   df <~ read_csv W csv_data ;;
   csv_comprehension (iterrows df) []) = Raise e.
Proof.
  intros [e' Hd | csv e' Hd Hp | csv df Hd Hp Hid Hrows].
  - rewrite Hd. reflexivity.
  - rewrite Hd. simpl. rewrite Hp. reflexivity.
  - rewrite Hd. simpl. rewrite Hp. simpl.
    unfold iterrows. destruct (rows df) as [|r rws]; [contradiction|].
    simpl. rewrite (@series_getitem_missing (columns df) r (lit "id") Hid). reflexivity.
Qed.

(** C3, as the code has it: a failed download, a CSV that [read_csv]
    rejects, and a CSV with at least one data row whose header has no [id]
    column each end the run with an uncaught exception, and no delete request
    has been issued by then. When the Index Reader has returned, the
    exception is the loader's own (a [KeyError] on [id] for the missing
    column). *)
Theorem loader_failure_is_fatal_before_any_delete
  (repr_str : str -> str) (W : World) (args : Args) (e : exn) :
  LoaderFailure W args e ->
  (exists e', snd (main repr_str W args) = Raise e')
  /\ delete_requests (base_url_of args) (index_name args)
       (fst (main repr_str W args)) = []
  /\ (forall t index_data,
        search_index W (base_url_of args) (index_name args) (api_key args)
        = (t, Ok index_data) ->
        main repr_str W args =
        (t ++ [Download (connection_string args) (container_name args)
                        (file_name args)],
         Raise e)).
Proof.
  intros Hfail. apply loader_failure_raises in Hfail.
  pose proof (search_index_no_delete W (base_url_of args) (index_name args)
                (api_key args)) as Hno.
  destruct (search_index W (base_url_of args) (index_name args) (api_key args))
    as [t [index_data|e0]] eqn:Hs; cbn [fst] in Hno.
  - pose proof (main_loader_raises repr_str _ _ Hs Hfail) as Hmain.
    rewrite Hmain. cbn [fst snd]. split; [now exists e | split].
    + rewrite delete_requests_app, Hno. reflexivity.
    + intros t0 i0 [= <- <-]. reflexivity.
  - pose proof (main_search_raises repr_str _ _ Hs) as Hmain.
    rewrite Hmain. cbn [fst snd]. split; [now exists e0 | split].
    + exact Hno.
    + intros t0 i0 [=].
Qed.

Lemma loader_failure_witness :
  main (fun s => s) missing_id_world sample_args =
  ([ Post (search_url (base_url_of sample_args) (index_name sample_args))
          (request_headers (api_key sample_args)) query;
     Download (connection_string sample_args) (container_name sample_args)
              (file_name sample_args) ],
   Raise (KeyError (lit "id"))).
Proof.
  refine (proj2 (proj2
    (@loader_failure_is_fatal_before_any_delete (fun s => s)
       missing_id_world sample_args (KeyError (lit "id")) _))
    [_] [ (KStr (lit "A"), VStr (lit "x")) ] _).
  - apply (@Missing_id_column missing_id_world sample_args
             (lit "csv text")
             {| columns := [lit "name"; lit "content"];
                rows := [[CStr (lit "A"); CStr (lit "x")]] |}).
    + reflexivity.
    + reflexivity.
    + vm_compute. intros [H|[H|[]]]; discriminate H.
    + discriminate.
  - vm_compute. reflexivity.
Defined.

(** C3 fails on a CSV that has a header without [id] column and no data
    row: the comprehension never reads a row, the reference snapshot is
    empty, the run ends normally and has asked to delete every indexed
    document. *)
Lemma header_without_id_and_no_rows_is_not_fatal :
  read_csv header_only_world (lit "csv text")
  = Ok {| columns := [lit "name"; lit "content"]; rows := [] |}
  /\ ~ In (lit "id") [lit "name"; lit "content"]
  /\ snd (main (fun s => s) header_only_world sample_args) = Ok tt
  /\ delete_requests (base_url_of sample_args) (index_name sample_args)
       (fst (main (fun s => s) header_only_world sample_args))
     = [ Post (delete_url (base_url_of sample_args) (index_name sample_args))
              (request_headers (api_key sample_args))
              (delete_data [KStr (lit "A")]) ].
Proof.
  split; [reflexivity | split; [|split]].
  - vm_compute. intros [H|[H|[]]]; discriminate H.
  - vm_compute. reflexivity.
  - vm_compute. reflexivity.
Qed.

(** ** Failures of the search service *)

(** C4 fails when [requests.post] itself raises: nothing catches the
    exception, on the search call or on the delete call, and the run ends
    with it. *)
Lemma connection_error_is_not_caught :
  main (fun s => s) unreachable_world sample_args =
  ([ Post (search_url (base_url_of sample_args) (index_name sample_args))
          (request_headers (api_key sample_args)) query ],
   Raise (LibraryError (lit "ConnectionError")))
  /\ snd (main (fun s => s) dropped_delete_world sample_args)
     = Raise (LibraryError (lit "ConnectionError")).
Proof.
  split; vm_compute; reflexivity.
Qed.

(** C4, as the code has it: a response with a status other than 200 is
    logged with its status and body, on the search call (the index snapshot
    is then empty, and the run ends normally when the Reference Loader
    returns) and on the delete call (no deletion count is printed, and the
    run ends normally); an exception raised by [requests.post] on the delete
    call ends the run, after the request and without a count or an error
    line. *)
Theorem non_200_response_is_logged_and_survived
  (repr_str : str -> str) (W : World) (args : Args) :
  let base_url := base_url_of args in
  let download :=
    Download (connection_string args) (container_name args) (file_name args) in
  (forall response csv_data,
      requests_post W (search_url base_url (index_name args))
                    (request_headers (api_key args)) query = Ok response ->
      status_code response <> 200%Z ->
      load_csv_from_blob W (connection_string args) (container_name args)
                         (file_name args) = ([download], Ok csv_data) ->
      search_index W base_url (index_name args) (api_key args)
      = ([ Post (search_url base_url (index_name args))
                (request_headers (api_key args)) query;
           Print (lit "Error during search: "
                  ++ str_of_int (status_code response)
                  ++ lit ", " ++ text response) ],
         Ok [])
      /\ snd (main repr_str W args) = Ok tt)
  /\ (forall t index_data csv_data response,
         search_index W base_url (index_name args) (api_key args)
         = (t, Ok index_data) ->
         load_csv_from_blob W (connection_string args) (container_name args)
                            (file_name args) = ([download], Ok csv_data) ->
         let ids := missing_ids index_data csv_data in
         ids <> [] ->
         forallb (fun k => previewable (content_of index_data k)) ids = true ->
         requests_post W (delete_url base_url (index_name args))
                       (request_headers (api_key args)) (delete_data ids)
         = Ok response ->
         status_code response <> 200%Z ->
         main repr_str W args =
         (t ++ download
            :: Print (lit "Deleting the following documents:")
            :: map (fun k => Print (candidate_line repr_str k
                                      (preview_of (content_of index_data k))))
                   ids
            ++ [ Post (delete_url base_url (index_name args))
                      (request_headers (api_key args)) (delete_data ids);
                 Print (lit "Error during deletion: "
                        ++ str_of_int (status_code response)
                        ++ lit ", " ++ text response) ],
          Ok tt))
  /\ (forall t index_data csv_data e,
         search_index W base_url (index_name args) (api_key args)
         = (t, Ok index_data) ->
         load_csv_from_blob W (connection_string args) (container_name args)
                            (file_name args) = ([download], Ok csv_data) ->
         let ids := missing_ids index_data csv_data in
         ids <> [] ->
         forallb (fun k => previewable (content_of index_data k)) ids = true ->
         requests_post W (delete_url base_url (index_name args))
                       (request_headers (api_key args)) (delete_data ids)
         = Raise e ->
         main repr_str W args =
         (t ++ download
            :: Print (lit "Deleting the following documents:")
            :: map (fun k => Print (candidate_line repr_str k
                                      (preview_of (content_of index_data k))))
                   ids
            ++ [ Post (delete_url base_url (index_name args))
                      (request_headers (api_key args)) (delete_data ids) ],
          Raise e)).
Proof.
  intros base_url download. split; [|split].
  - intros response csv_data Hpost Hcode Hl.
    pose proof (failed_search_helper := search_index_failure _ _ _ _ Hpost Hcode).
    split; [exact failed_search_helper|].
    apply loaded_ok in Hl as [_ Hl].
    rewrite (main_reconciles repr_str _ _ failed_search_helper Hl). reflexivity.
  - intros t index_data csv_data response Hs Hl ids Hne Hprev Hpost Hcode.
    apply loaded_ok in Hl as [_ Hl].
    rewrite (main_reconciles repr_str _ _ Hs Hl). fold ids base_url.
    pose proof (@log_candidates_ok repr_str index_data ids Hprev) as Hlog.
    pose proof (@delete_documents_sends repr_str W base_url (index_name args)
                  (api_key args) ids index_data _ Hlog) as Hsend.
    rewrite Hpost in Hsend. apply Z.eqb_neq in Hcode. rewrite Hcode in Hsend.
    clearbody ids. destruct ids as [|k ids']; [contradiction|].
    rewrite Hsend. reflexivity.
  - intros t index_data csv_data e Hs Hl ids Hne Hprev Hpost.
    apply loaded_ok in Hl as [_ Hl].
    rewrite (main_reconciles repr_str _ _ Hs Hl). fold ids base_url.
    pose proof (@log_candidates_ok repr_str index_data ids Hprev) as Hlog.
    pose proof (@delete_documents_sends repr_str W base_url (index_name args)
                  (api_key args) ids index_data _ Hlog) as Hsend.
    rewrite Hpost in Hsend.
    clearbody ids. destruct ids as [|k ids']; [contradiction|].
    rewrite Hsend. reflexivity.
Qed.

Lemma non_200_response_witness :
  snd (main (fun s => s) unavailable_world sample_args) = Ok tt
  /\ main (fun s => s) forbidden_delete_world sample_args =
     ([ Post (search_url (base_url_of sample_args) (index_name sample_args))
             (request_headers (api_key sample_args)) query;
        Download (connection_string sample_args) (container_name sample_args)
                 (file_name sample_args);
        Print (lit "Deleting the following documents:");
        Print (lit "ID: B, y...");
        Post (delete_url (base_url_of sample_args) (index_name sample_args))
             (request_headers (api_key sample_args))
             (delete_data [KStr (lit "B")]);
        Print (lit "Error during deletion: 403, Forbidden") ],
      Ok tt)
  /\ main (fun s => s) dropped_delete_world sample_args =
     ([ Post (search_url (base_url_of sample_args) (index_name sample_args))
             (request_headers (api_key sample_args)) query;
        Download (connection_string sample_args) (container_name sample_args)
                 (file_name sample_args);
        Print (lit "Deleting the following documents:");
        Print (lit "ID: A, x...");
        Post (delete_url (base_url_of sample_args) (index_name sample_args))
             (request_headers (api_key sample_args))
             (delete_data [KStr (lit "A")]) ],
      Raise (LibraryError (lit "ConnectionError"))).
Proof.
  split; [|split].
  - refine (proj2 (proj1
      (@non_200_response_is_logged_and_survived (fun s => s)
         unavailable_world sample_args)
      {| status_code := 503; text := lit "Service Unavailable";
         json := Raise (LibraryError (lit "JSONDecodeError")) |}
      [ (KStr (lit "A"), CStr (lit "x")) ] _ _ _)).
    + reflexivity.
    + simpl. lia.
    + vm_compute. reflexivity.
  - refine (proj1 (proj2
      (@non_200_response_is_logged_and_survived (fun s => s)
         forbidden_delete_world sample_args))
      [_]
      [ (KStr (lit "A"), VStr (lit "x")); (KStr (lit "B"), VStr (lit "y")) ]
      [ (KStr (lit "A"), CStr (lit "x")) ]
      {| status_code := 403; text := lit "Forbidden";
         json := Raise (LibraryError (lit "JSONDecodeError")) |}
      _ _ _ _ _ _).
    + vm_compute. reflexivity.
    + vm_compute. reflexivity.
    + vm_compute. discriminate.
    + vm_compute. reflexivity.
    + vm_compute. reflexivity.
    + simpl. lia.
  - refine (proj2 (proj2
      (@non_200_response_is_logged_and_survived (fun s => s)
         dropped_delete_world sample_args))
      [_]
      [ (KStr (lit "A"), VStr (lit "x")) ]
      [ (KStr (lit "B"), CStr (lit "y")) ]
      (LibraryError (lit "ConnectionError"))
      _ _ _ _ _).
    + vm_compute. reflexivity.
    + vm_compute. reflexivity.
    + vm_compute. discriminate.
    + vm_compute. reflexivity.
    + vm_compute. reflexivity.
Defined.

(** ** Keys of the reference snapshot *)

Lemma map_all_In {A B} (f : A -> option B) (l : list A) (ys : list B) :
  map_all f l = Some ys ->
  forall y, In y ys <-> exists x, In x l /\ f x = Some y.
Proof.
  revert ys; induction l as [|x l IH]; intros ys; simpl.
  - intros [= <-] y. split; [intros [] | intros [x [[] _]]].
  - destruct (f x) as [y0|] eqn:Ex; [|discriminate].
    destruct (map_all f l) as [ys0|]; [|discriminate].
    intros [= <-] y. simpl. rewrite (IH ys0 eq_refl y). split.
    + intros [<-|[x' [Hin Hx']]].
      * exists x. auto.
      * exists x'. auto.
    + intros [x' [[<-|Hin] Hx']].
      * left. congruence.
      * right. exists x'. auto.
Qed.

Lemma csv_comprehension_ok_inv (rws : list Series) (acc d : dict cell) :
  csv_comprehension rws acc = Ok d ->
  exists items, map_all row_fields rws = Some items.
Proof.
  revert acc; induction rws as [|row rws IH]; intros acc; simpl.
  - intros _. now exists [].
  - unfold row_fields at 1.
    destruct (series_getitem row (lit "id")) as [i|e]; [|discriminate].
    destruct (series_getitem row (lit "content")) as [c|e]; [|discriminate].
    simpl. intros H. apply IH in H as [items ->]. now eexists.
Qed.

Lemma dict_contains_fold {V} (items : list (key * V)) (d : dict V) (k : key) :
  dict_contains (fold_left (fun acc kv => dict_set acc (fst kv) (snd kv)) items d) k
  = dict_contains d k || existsb (fun kv => key_eqb (fst kv) k) items.
Proof.
  revert d; induction items as [|[k0 v0] items IH]; intros d; simpl.
  - now rewrite orb_false_r.
  - rewrite IH, dict_contains_set. simpl.
    destruct (key_eqb k0 k), (dict_contains d k); reflexivity.
Qed.

Lemma key_eqb_KStr (s : str) (k : key) : key_eqb (KStr s) k = true <-> k = KStr s.
Proof.
  split.
  - destruct k as [|[|]|n|t]; try discriminate.
    rewrite key_eqb_str, str_eqb_eq. congruence.
  - intros ->. apply key_eqb_refl.
Qed.




(** ** The batch delete request *)

Lemma delete_requests_lines base_url index_name {A} (f : A -> str) (l : list A) :
  delete_requests base_url index_name (map (fun x => Print (f x)) l) = [].
Proof. induction l; simpl; auto. Qed.

Lemma log_candidates_app repr_str (index_data : dict value) (pre rest : list key) :
  forallb (fun k => previewable (content_of index_data k)) pre = true ->
  log_candidates repr_str (pre ++ rest) index_data =
  let (t, r) := log_candidates repr_str rest index_data in
  (map (fun k => Print (candidate_line repr_str k
                          (preview_of (content_of index_data k)))) pre ++ t, r).
Proof.
  induction pre as [|p pre IH]; cbn [forallb log_candidates map app].
  - intros _. now destruct (log_candidates repr_str rest index_data).
  - intros H. apply andb_true_iff in H as [Hp Hpre].
    fold (content_of index_data p).
    rewrite (slice_to_previewable _ Hp), (IH Hpre).
    now destruct (log_candidates repr_str rest index_data).
Qed.

(** C7, as the code has it: when the deletion set is not empty and every
    candidate's content in the index snapshot is a string or a list, the run
    issues exactly one delete request, a POST to
    {base}/indexes/{index}/docs/index?api-version=2024-07-01 whose body is
    {value: [...]} with one entry {"@search.action": "delete", "id": id} per
    id of the deletion set, in the deletion set's order, whatever the service
    then answers. *)
Theorem one_batch_delete_request
  (repr_str : str -> str) (W : World) (args : Args)
  (t t' : trace) (index_data : dict value) (csv_data : dict cell) :
  search_index W (base_url_of args) (index_name args) (api_key args)
  = (t, Ok index_data) ->
  load_csv_from_blob W (connection_string args) (container_name args)
                     (file_name args) = (t', Ok csv_data) ->
  missing_ids index_data csv_data <> [] ->
  forallb (fun k => previewable (content_of index_data k))
          (missing_ids index_data csv_data) = true ->
  delete_requests (base_url_of args) (index_name args)
    (fst (main repr_str W args))
  = [ Post (base_url_of args ++ lit "/indexes/" ++ index_name args
            ++ lit "/docs/index?api-version=2024-07-01")
           (VDict [ (KStr (lit "Content-Type"), VStr (lit "application/json"));
                    (KStr (lit "api-key"), VStr (api_key args)) ])
           (VDict [ (KStr (lit "value"),
                     VList (map (fun doc_id =>
                                   VDict [ (KStr (lit "@search.action"),
                                            VStr (lit "delete"));
                                           (KStr (lit "id"), key_value doc_id) ])
                                (missing_ids index_data csv_data))) ]) ].
Proof.
  intros Hs Hl Hne Hprev.
  apply loaded_ok in Hl as [_ Hl].
  rewrite (main_reconciles repr_str _ _ Hs Hl).
  pose proof (@log_candidates_ok repr_str index_data _ Hprev) as Hlog.
  pose proof (@delete_documents_sends repr_str W (base_url_of args)
                (index_name args) (api_key args) _ index_data _ Hlog) as Hsend.
  pose proof (search_index_no_delete W (base_url_of args) (index_name args)
                (api_key args)) as Hno.
  rewrite Hs in Hno. cbn [fst] in Hno.
  destruct (missing_ids index_data csv_data) as [|k ids]; [contradiction|].
  rewrite Hsend. clear Hsend Hlog.
  assert (Hreq : forall tail,
    delete_requests (base_url_of args) (index_name args)
      (t ++ Download (connection_string args) (container_name args)
                     (file_name args)
         :: Print (lit "Deleting the following documents:")
         :: map (fun k0 => Print (candidate_line repr_str k0
                                    (preview_of (content_of index_data k0))))
                (k :: ids)
         ++ Post (delete_url (base_url_of args) (index_name args))
                 (request_headers (api_key args)) (delete_data (k :: ids))
         :: map Print tail)
    = [ Post (delete_url (base_url_of args) (index_name args))
             (request_headers (api_key args)) (delete_data (k :: ids)) ]).
  { intros tail.
    pose proof (delete_requests_lines (base_url_of args) (index_name args)
                  (fun k0 => candidate_line repr_str k0
                               (preview_of (content_of index_data k0)))
                  (k :: ids)) as Hlines.
    pose proof (delete_requests_prints (base_url_of args) (index_name args) tail)
      as Htail.
    unfold delete_requests in *.
    rewrite filter_app, Hno. cbn [app filter is_delete_request].
    rewrite filter_app, Hlines. cbn [app filter].
    rewrite is_delete_request_delete, Htail. reflexivity. }
  destruct (requests_post W _ _ _) as [response|e]; cbn [fst].
  - apply (Hreq [_]).
  - apply (Hreq []).
Qed.

Lemma one_batch_delete_witness :
  delete_requests (base_url_of sample_args) (index_name sample_args)
    (fst (main (fun s => s) forbidden_delete_world sample_args))
  = [ Post (lit "https://svc.search.windows.net/indexes/docs/docs/index?api-version=2024-07-01")
           (request_headers (lit "key"))
           (VDict [ (KStr (lit "value"),
                     VList [ VDict [ (KStr (lit "@search.action"), VStr (lit "delete"));
                                     (KStr (lit "id"), VStr (lit "B")) ] ]) ]) ].
Proof.
  refine (@one_batch_delete_request (fun s => s) forbidden_delete_world
            sample_args
            [Post (search_url (base_url_of sample_args) (index_name sample_args))
                  (request_headers (api_key sample_args)) query]
            [Download (connection_string sample_args)
                      (container_name sample_args) (file_name sample_args)]
            [ (KStr (lit "A"), VStr (lit "x")); (KStr (lit "B"), VStr (lit "y")) ]
            [ (KStr (lit "A"), CStr (lit "x")) ]
            _ _ _ _).
  - vm_compute. reflexivity.
  - vm_compute. reflexivity.
  - vm_compute. discriminate.
  - vm_compute. reflexivity.
Defined.

(** C7 fails when a candidate's content is null: the logging loop raises
    on [content[:30]] and the run ends before the delete request, with a
    deletion set that is not empty. *)
Lemma null_content_blocks_the_delete_request :
  search_index null_content_world (base_url_of sample_args)
               (index_name sample_args) (api_key sample_args)
  = ([ Post (search_url (base_url_of sample_args) (index_name sample_args))
            (request_headers (api_key sample_args)) query ],
     Ok [ (KStr (lit "B"), VNone) ])
  /\ missing_ids [ (KStr (lit "B"), VNone) ] [ (KStr (lit "A"), CStr (lit "x")) ]
     = [ KStr (lit "B") ]
  /\ main (fun s => s) null_content_world sample_args
     = ([ Post (search_url (base_url_of sample_args) (index_name sample_args))
               (request_headers (api_key sample_args)) query;
          Download (connection_string sample_args) (container_name sample_args)
                   (file_name sample_args);
          Print (lit "Deleting the following documents:") ],
        Raise TypeError)
  /\ delete_requests (base_url_of sample_args) (index_name sample_args)
       (fst (main (fun s => s) null_content_world sample_args)) = [].
Proof.
  repeat split; vm_compute; reflexivity.
Qed.

(** ** Duplicate ids *)

Lemma last_occurrence_get {V} (items : list (key * V)) (k : key) :
  dict_get (fold_left (fun acc kv => dict_set acc (fst kv) (snd kv)) items []) k
  = last_occurrence items k.
Proof.
  rewrite dict_get_fold. now destruct (last_occurrence items k).
Qed.

(** C8: search results that each have an id and a content, and CSV rows
    that each have an id and a content, build their snapshot without error
    whatever ids repeat; the snapshot has one entry per id, and the content
    under an id is the content of the last result, or row, with that id. *)
Theorem duplicate_ids_overwrite (W : World) :
  (forall base_url index_name api_key response results docs items,
      requests_post W (search_url base_url index_name)
                    (request_headers api_key) query = Ok response ->
      status_code response = 200%Z ->
      json response = Ok results ->
      getitem results (lit "value") = Ok (VList docs) ->
      map_all doc_fields docs = Some items ->
      exists index_data,
        search_index W base_url index_name api_key
        = ([ Post (search_url base_url index_name) (request_headers api_key)
                  query ],
           Ok index_data)
        /\ dict_wf index_data
        /\ forall k, dict_get index_data k = last_occurrence items k)
  /\ (forall conn container blob text df items,
         download_blob W conn container blob = Ok text ->
         read_csv W text = Ok df ->
         map_all row_fields (iterrows df) = Some items ->
         exists csv_data,
           load_csv_from_blob W conn container blob
           = ([Download conn container blob], Ok csv_data)
           /\ dict_wf csv_data
           /\ forall k, dict_get csv_data k = last_occurrence items k).
Proof.
  split.
  - intros base_url index_name api_key response results docs items
           Hpost Hcode Hjson Hvalue Hitems.
    eexists. split; [|split].
    + rewrite (search_index_success _ _ _ _ Hpost Hcode), Hjson. simpl.
      rewrite Hvalue. simpl.
      rewrite (index_comprehension_fields _ _ Hitems). reflexivity.
    + apply dict_wf_fold, dict_wf_nil.
    + apply last_occurrence_get.
  - intros conn container blob text df items Hd Hp Hitems.
    eexists. split; [|split].
    + rewrite load_csv_from_blob_eq, Hd. simpl. rewrite Hp. simpl.
      rewrite (csv_comprehension_fields _ _ Hitems). reflexivity.
    + apply dict_wf_fold, dict_wf_nil.
    + apply last_occurrence_get.
Qed.

Lemma duplicate_ids_witness :
  (exists index_data,
      search_index duplicate_ids_world (base_url_of sample_args)
                   (index_name sample_args) (api_key sample_args)
      = ([ Post (search_url (base_url_of sample_args) (index_name sample_args))
                (request_headers (api_key sample_args)) query ],
         Ok index_data)
      /\ dict_wf index_data
      /\ forall k, dict_get index_data k
                   = last_occurrence [ (KStr (lit "A"), VStr (lit "old"));
                                       (KStr (lit "B"), VStr (lit "y"));
                                       (KStr (lit "A"), VStr (lit "new")) ] k)
  /\ (exists csv_data,
         load_csv_from_blob duplicate_ids_world (connection_string sample_args)
                            (container_name sample_args) (file_name sample_args)
         = ([ Download (connection_string sample_args)
                       (container_name sample_args) (file_name sample_args) ],
            Ok csv_data)
         /\ dict_wf csv_data
         /\ forall k, dict_get csv_data k
                      = last_occurrence [ (KStr (lit "A"), CStr (lit "first"));
                                          (KStr (lit "A"), CStr (lit "second")) ] k).
Proof.
  split.
  - refine (proj1 (duplicate_ids_overwrite duplicate_ids_world)
              (base_url_of sample_args) (index_name sample_args)
              (api_key sample_args)
              {| status_code := 200; text := lit "{...}";
                 json := Ok (VDict [ (KStr (lit "@odata.context"), VStr (lit "ctx"));
                                     (KStr (lit "value"),
                                      VList [document (VStr (lit "A")) (VStr (lit "old"));
                                             document (VStr (lit "B")) (VStr (lit "y"));
                                             document (VStr (lit "A")) (VStr (lit "new"))]) ]) |}
              _ _ _ _ _ _ _ _).
    + reflexivity.
    + reflexivity.
    + reflexivity.
    + reflexivity.
    + reflexivity.
  - refine (proj2 (duplicate_ids_overwrite duplicate_ids_world)
              (connection_string sample_args) (container_name sample_args)
              (file_name sample_args) (lit "csv text")
              {| columns := [lit "id"; lit "content"];
                 rows := [[CStr (lit "A"); CStr (lit "first")];
                          [CStr (lit "A"); CStr (lit "second")]] |}
              _ _ _ _).
    + reflexivity.
    + reflexivity.
    + reflexivity.
Defined.

Example duplicate_ids_example :
  search_index duplicate_ids_world (base_url_of sample_args)
               (index_name sample_args) (api_key sample_args)
  = ([ Post (search_url (base_url_of sample_args) (index_name sample_args))
            (request_headers (api_key sample_args)) query ],
     Ok [ (KStr (lit "A"), VStr (lit "new")); (KStr (lit "B"), VStr (lit "y")) ])
  /\ load_csv_from_blob duplicate_ids_world (connection_string sample_args)
                        (container_name sample_args) (file_name sample_args)
     = ([ Download (connection_string sample_args) (container_name sample_args)
                   (file_name sample_args) ],
        Ok [ (KStr (lit "A"), CStr (lit "second")) ]).
Proof. split; vm_compute; reflexivity. Qed.

(** ** Malformed 200 responses *)

(** C9, as the code has it: on a 200 response whose JSON body is an object
    without [value], and on one whose [value] is a list in which a JSON
    object without [id] or without [content] comes after results that each
    have an id and a content (so also when the list holds JSON objects with
    scalar ids only), [search_index] raises a [KeyError], on [value] in the
    first case and on [id] (or on [content], when the object has an id) in
    the second, having printed nothing; the error line and the empty mapping
    that goes with it come with the statuses other than 200, and only with
    them. *)
Theorem malformed_200_response_raises_KeyError
  (W : World) (base_url index_name api_key : str) (response : Response) :
  requests_post W (search_url base_url index_name) (request_headers api_key) query
  = Ok response ->
  let request :=
    Post (search_url base_url index_name) (request_headers api_key) query in
  (forall results,
      status_code response = 200%Z ->
      json response = Ok (VDict results) ->
      dict_contains results (KStr (lit "value")) = false ->
      search_index W base_url index_name api_key
      = ([request], Raise (KeyError (lit "value"))))
  /\ (forall results docs,
         status_code response = 200%Z ->
         json response = Ok (VDict results) ->
         dict_get results (KStr (lit "value")) = Some (VList docs) ->
         forallb is_document docs = true ->
         existsb (fun doc => lacks_field doc (lit "id")
                             || lacks_field doc (lit "content")) docs = true ->
         search_index W base_url index_name api_key
         = ([request], Raise (KeyError (lit "id")))
         \/ search_index W base_url index_name api_key
            = ([request], Raise (KeyError (lit "content"))))
  /\ (status_code response <> 200%Z <->
      search_index W base_url index_name api_key
      = ([request; Print (search_error_line response)], Ok []))
  /\ (forall results pre fields rest items,
         status_code response = 200%Z ->
         json response = Ok (VDict results) ->
         dict_get results (KStr (lit "value"))
         = Some (VList (pre ++ VDict fields :: rest)) ->
         map_all doc_fields pre = Some items ->
         (dict_contains fields (KStr (lit "id")) = false ->
          search_index W base_url index_name api_key
          = ([request], Raise (KeyError (lit "id"))))
         /\ (dict_contains fields (KStr (lit "id")) = true ->
             dict_contains fields (KStr (lit "content")) = false ->
             search_index W base_url index_name api_key
             = ([request], Raise (KeyError (lit "content"))))).
Proof.
  intros Hpost request. split; [|split; [|split]].
  - intros results Hcode Hjson Hvalue.
    rewrite (search_index_success _ _ _ _ Hpost Hcode), Hjson.
    unfold dict_contains in Hvalue. cbn [bindR getitem].
    destruct (dict_get results (KStr (lit "value"))); [discriminate|reflexivity].
  - intros results docs Hcode Hjson Hvalue Hdocs Hlack.
    rewrite (search_index_success _ _ _ _ Hpost Hcode), Hjson.
    cbn [bindR getitem]. rewrite Hvalue. cbn [bindR iterate].
    destruct (index_comprehension_missing_field docs [] Hdocs Hlack) as [-> | ->];
      [left | right]; reflexivity.
  - split.
    + intros Hcode. apply (search_index_failure _ _ _ _ Hpost Hcode).
    + intros Hs Hcode.
      rewrite (search_index_success _ _ _ _ Hpost Hcode) in Hs. discriminate Hs.
  - intros results pre fields rest items Hcode Hjson Hvalue Hitems.
    rewrite (search_index_success _ _ _ _ Hpost Hcode), Hjson.
    cbn [bindR getitem]. rewrite Hvalue. cbn [bindR iterate].
    rewrite (@index_comprehension_app pre (VDict fields :: rest) items [] Hitems).
    cbn [index_comprehension getitem]. unfold dict_contains. split.
    + intros Hid.
      destruct (dict_get fields (KStr (lit "id"))); [discriminate|reflexivity].
    + intros Hid Hcontent.
      destruct (dict_get fields (KStr (lit "id"))); [|discriminate].
      destruct (dict_get fields (KStr (lit "content"))); [discriminate|reflexivity].
Qed.

Lemma malformed_200_response_witness :
  search_index no_value_world (base_url_of sample_args)
               (index_name sample_args) (api_key sample_args)
  = ([ Post (search_url (base_url_of sample_args) (index_name sample_args))
            (request_headers (api_key sample_args)) query ],
     Raise (KeyError (lit "value")))
  /\ (search_index no_content_world (base_url_of sample_args)
                   (index_name sample_args) (api_key sample_args)
      = ([ Post (search_url (base_url_of sample_args) (index_name sample_args))
                (request_headers (api_key sample_args)) query ],
         Raise (KeyError (lit "id")))
      \/ search_index no_content_world (base_url_of sample_args)
                      (index_name sample_args) (api_key sample_args)
         = ([ Post (search_url (base_url_of sample_args) (index_name sample_args))
                   (request_headers (api_key sample_args)) query ],
            Raise (KeyError (lit "content"))))
  /\ search_index no_content_world (base_url_of sample_args)
                  (index_name sample_args) (api_key sample_args)
     = ([ Post (search_url (base_url_of sample_args) (index_name sample_args))
               (request_headers (api_key sample_args)) query ],
        Raise (KeyError (lit "content"))).
Proof.
  split; [|split].
  - refine (proj1
      (@malformed_200_response_raises_KeyError no_value_world
         (base_url_of sample_args) (index_name sample_args) (api_key sample_args)
         no_value_response _)
      [ (KStr (lit "@odata.context"), VStr (lit "ctx")) ] _ _ _).
    + reflexivity.
    + reflexivity.
    + reflexivity.
    + reflexivity.
  - refine (proj1 (proj2
      (@malformed_200_response_raises_KeyError no_content_world
         (base_url_of sample_args) (index_name sample_args) (api_key sample_args)
         {| status_code := 200; text := lit "{...}";
            json := Ok (VDict [ (KStr (lit "@odata.context"), VStr (lit "ctx"));
                                (KStr (lit "value"),
                                 VList [document (VStr (lit "A")) (VStr (lit "x"));
                                        VDict [ (KStr (lit "id"), VStr (lit "B")) ]]) ]) |}
         _))
      [ (KStr (lit "@odata.context"), VStr (lit "ctx"));
        (KStr (lit "value"),
         VList [document (VStr (lit "A")) (VStr (lit "x"));
                VDict [ (KStr (lit "id"), VStr (lit "B")) ]]) ]
      [document (VStr (lit "A")) (VStr (lit "x"));
       VDict [ (KStr (lit "id"), VStr (lit "B")) ]]
      _ _ _ _ _).
    + reflexivity.
    + reflexivity.
    + reflexivity.
    + reflexivity.
    + reflexivity.
    + reflexivity.
  - refine (proj2 (proj2 (proj2 (proj2
      (@malformed_200_response_raises_KeyError no_content_world
         (base_url_of sample_args) (index_name sample_args) (api_key sample_args)
         {| status_code := 200; text := lit "{...}";
            json := Ok (VDict [ (KStr (lit "@odata.context"), VStr (lit "ctx"));
                                (KStr (lit "value"),
                                 VList [document (VStr (lit "A")) (VStr (lit "x"));
                                        VDict [ (KStr (lit "id"), VStr (lit "B")) ]]) ]) |}
         _)))
      [ (KStr (lit "@odata.context"), VStr (lit "ctx"));
        (KStr (lit "value"),
         VList [document (VStr (lit "A")) (VStr (lit "x"));
                VDict [ (KStr (lit "id"), VStr (lit "B")) ]]) ]
      [document (VStr (lit "A")) (VStr (lit "x"))]
      [ (KStr (lit "id"), VStr (lit "B")) ] []
      [ (KStr (lit "A"), VStr (lit "x")) ]
      _ _ _ _) _ _).
    + reflexivity.
    + reflexivity.
    + reflexivity.
    + reflexivity.
    + reflexivity.
    + reflexivity.
    + reflexivity.
Defined.

Example document_without_content_example :
  search_index no_content_world (base_url_of sample_args)
               (index_name sample_args) (api_key sample_args)
  = ([ Post (search_url (base_url_of sample_args) (index_name sample_args))
            (request_headers (api_key sample_args)) query ],
     Raise (KeyError (lit "content"))).
Proof. vm_compute. reflexivity. Qed.

(** C9 fails when an ill-typed result comes before the JSON object that
    lacks a field: with a number, or an object whose id is a list, in front
    of a document without [content], [search_index] raises a [TypeError],
    not a [KeyError]. *)
Lemma ill_typed_result_before_the_incomplete_one :
  existsb (fun doc => lacks_field doc (lit "id") || lacks_field doc (lit "content"))
          [ VInt 5; VDict [ (KStr (lit "id"), VStr (lit "B")) ] ] = true
  /\ search_index number_result_world (base_url_of sample_args)
                  (index_name sample_args) (api_key sample_args)
     = ([ Post (search_url (base_url_of sample_args) (index_name sample_args))
               (request_headers (api_key sample_args)) query ],
        Raise TypeError)
  /\ existsb (fun doc => lacks_field doc (lit "id") || lacks_field doc (lit "content"))
             [ document (VList [VInt 1]) (VStr (lit "y"));
               VDict [ (KStr (lit "id"), VStr (lit "B")) ] ] = true
  /\ search_index list_id_first_world (base_url_of sample_args)
                  (index_name sample_args) (api_key sample_args)
     = ([ Post (search_url (base_url_of sample_args) (index_name sample_args))
               (request_headers (api_key sample_args)) query ],
        Raise TypeError).
Proof.
  repeat split; vm_compute; reflexivity.
Qed.

(** ** Content previews *)

Lemma delete_documents_trace_prefix
  repr_str (W : World) (base_url index_name api_key : str)
  (ids : list key) (index_data : dict value) :
  exists after,
    fst (delete_documents_from_index repr_str W base_url index_name api_key
           ids index_data)
    = Print (lit "Deleting the following documents:")
      :: fst (log_candidates repr_str ids index_data) ++ after.
Proof.
  destruct (log_candidates repr_str ids index_data) as [t [[]|e]] eqn:Hlog.
  - rewrite (@delete_documents_sends repr_str W base_url index_name api_key
               ids index_data t Hlog).
    destruct (requests_post W _ _ _) as [response|e]; eexists; reflexivity.
  - rewrite (@delete_documents_logging_raises repr_str W base_url index_name
               api_key ids index_data t e Hlog).
    exists []. cbn [fst]. now rewrite app_nil_r.
Qed.

(** C10 fails on a content that is a list: [content[:30]] slices a list as
    it slices a string, the candidate is logged and the delete request is
    sent. *)
Lemma list_content_is_sliced_not_rejected :
  content_of [ (KStr (lit "B"), VList [VInt 1; VInt 2]) ] (KStr (lit "B"))
  = VList [VInt 1; VInt 2]
  /\ delete_documents_from_index (fun s => s) list_content_world
       (base_url_of sample_args) (index_name sample_args) (api_key sample_args)
       [ KStr (lit "B") ] [ (KStr (lit "B"), VList [VInt 1; VInt 2]) ]
     = ([ Print (lit "Deleting the following documents:");
          Print (lit "ID: B, [1, 2]...");
          Post (delete_url (base_url_of sample_args) (index_name sample_args))
               (request_headers (api_key sample_args))
               (delete_data [KStr (lit "B")]);
          Print (lit "Successfully deleted 1 documents.") ],
        Ok tt).
Proof. split; vm_compute; reflexivity. Qed.

(** C10, as the code has it: at the first candidate whose content in the
    index snapshot is null, a boolean or an integer,
    [delete_documents_from_index] raises a [TypeError] on [content[:30]],
    after the lines of the candidates before it and before any delete
    request; a string content is logged by its first 30 characters, and a
    list content by its first 30 elements, without error. *)
Theorem content_preview_by_kind
  (repr_str : str -> str) (W : World) (base_url index_name api_key : str)
  (index_data : dict value) (pre rest : list key) (doc_id : key) :
  forallb (fun k => previewable (content_of index_data k)) pre = true ->
  let run :=
    delete_documents_from_index repr_str W base_url index_name api_key
      (pre ++ doc_id :: rest) index_data in
  let logged_before :=
    Print (lit "Deleting the following documents:")
    :: map (fun k => Print (candidate_line repr_str k
                              (preview_of (content_of index_data k)))) pre in
  (plain_scalar (content_of index_data doc_id) = true ->
   run = (logged_before, Raise TypeError)
   /\ delete_requests base_url index_name (fst run) = [])
  /\ (forall s, content_of index_data doc_id = VStr s ->
        exists after,
          fst run =
          logged_before
          ++ Print (lit "ID: " ++ py_format repr_str (key_value doc_id)
                    ++ lit ", " ++ firstn 30 s ++ lit "...") :: after)
  /\ (forall l, content_of index_data doc_id = VList l ->
        exists after,
          fst run =
          logged_before
          ++ Print (lit "ID: " ++ py_format repr_str (key_value doc_id)
                    ++ lit ", " ++ py_repr repr_str (VList (firstn 30 l))
                    ++ lit "...") :: after).
Proof.
  intros Hpre run logged_before.
  assert (Hline : forall content,
    content_of index_data doc_id = content ->
    previewable content = true ->
    exists after,
      fst run =
      logged_before
      ++ Print (candidate_line repr_str doc_id (preview_of content)) :: after).
  { intros content Hc Hp.
    destruct (delete_documents_trace_prefix repr_str W base_url index_name
                api_key (pre ++ doc_id :: rest) index_data) as [after Hrun].
    fold run in Hrun. rewrite Hrun.
    rewrite (@log_candidates_app repr_str index_data pre (doc_id :: rest) Hpre).
    cbn [log_candidates]. fold (content_of index_data doc_id).
    rewrite Hc, (slice_to_previewable _ Hp). unfold bind, lift, print.
    destruct (log_candidates repr_str rest index_data) as [t r].
    cbn [fst app]. exists (t ++ after). unfold logged_before.
    rewrite <- app_comm_cons, <- app_assoc. reflexivity. }
  split; [|split].
  - intros Hscalar.
    pose proof (@log_candidates_raise repr_str index_data pre rest doc_id
                  TypeError Hpre (slice_to_plain_scalar _ Hscalar)) as Hlog.
    pose proof (@delete_documents_logging_raises repr_str W base_url index_name
                  api_key _ index_data _ _ Hlog) as Hrun.
    fold run in Hrun. rewrite Hrun. split; [reflexivity|].
    cbn [fst]. unfold delete_requests. cbn [filter is_delete_request].
    apply (delete_requests_lines base_url index_name
             (fun k => candidate_line repr_str k
                         (preview_of (content_of index_data k))) pre).
  - intros s Hc. exact (Hline (VStr s) Hc eq_refl).
  - intros l Hc. exact (Hline (VList l) Hc eq_refl).
Qed.

Lemma content_preview_witness :
  delete_documents_from_index (fun s => s) null_content_world
    (base_url_of sample_args) (index_name sample_args) (api_key sample_args)
    ([KStr (lit "A")] ++ KStr (lit "B") :: [KStr (lit "C")])
    [ (KStr (lit "A"), VStr (lit "x")); (KStr (lit "B"), VNone);
      (KStr (lit "C"), VStr (lit "z")) ]
  = ([ Print (lit "Deleting the following documents:");
       Print (lit "ID: A, x...") ],
     Raise TypeError).
Proof.
  refine (proj1 (proj1
    (@content_preview_by_kind (fun s => s) null_content_world
       (base_url_of sample_args) (index_name sample_args) (api_key sample_args)
       [ (KStr (lit "A"), VStr (lit "x")); (KStr (lit "B"), VNone);
         (KStr (lit "C"), VStr (lit "z")) ]
       [KStr (lit "A")] [KStr (lit "C")] (KStr (lit "B")) _) _)).
  - reflexivity.
  - reflexivity.
Defined.

Example long_content_example :
  delete_documents_from_index (fun s => s) list_content_world
    (base_url_of sample_args) (index_name sample_args) (api_key sample_args)
    [ KStr (lit "A"); KInt 7 ]
    [ (KStr (lit "A"), VStr (lit "0123456789012345678901234567890123456789")) ]
  = ([ Print (lit "Deleting the following documents:");
       Print (lit "ID: A, 012345678901234567890123456789...");
       Print (lit "ID: 7, Content not available...");
       Post (delete_url (base_url_of sample_args) (index_name sample_args))
            (request_headers (api_key sample_args))
            (delete_data [KStr (lit "A"); KInt 7]);
       Print (lit "Successfully deleted 2 documents.") ],
     Ok tt).
Proof. vm_compute. reflexivity. Qed.

(** * Further properties of the script *)

(** ** What the Index Reader returns *)

Lemma index_comprehension_wf (docs : list value) (acc d : dict value) :
  index_comprehension docs acc = Ok d -> dict_wf acc -> dict_wf d.
Proof.
  revert acc; induction docs as [|doc docs IH]; intros acc; simpl.
  - intros [= <-]. auto.
  - destruct (getitem doc (lit "id")) as [i|e]; [|discriminate].
    destruct (getitem doc (lit "content")) as [c|e]; [|discriminate].
    simpl. destruct (hashable i) as [k|]; [|discriminate].
    intros H Hacc. eapply IH; [exact H | now apply dict_wf_set].
Qed.

Lemma csv_comprehension_wf (rws : list Series) (acc d : dict cell) :
  csv_comprehension rws acc = Ok d -> dict_wf acc -> dict_wf d.
Proof.
  revert acc; induction rws as [|row rws IH]; intros acc; simpl.
  - intros [= <-]. auto.
  - destruct (series_getitem row (lit "id")) as [i|e]; [|discriminate].
    destruct (series_getitem row (lit "content")) as [c|e]; [|discriminate].
    simpl. intros H Hacc. apply (IH _ H). now apply dict_wf_set.
Qed.

(** The two ways [search_index] returns. *)
Lemma search_index_returns (W : World) (base_url index_name api_key : str)
  (t : trace) (d : dict value) :
  search_index W base_url index_name api_key = (t, Ok d) ->
  exists response,
    requests_post W (search_url base_url index_name) (request_headers api_key)
                  query = Ok response
    /\ ((status_code response <> 200%Z /\ d = []
         /\ t = [ Post (search_url base_url index_name)
                       (request_headers api_key) query;
                  Print (search_error_line response) ])
        \/ (status_code response = 200%Z
            /\ t = [ Post (search_url base_url index_name)
                          (request_headers api_key) query ]
            /\ exists body results docs,
                 json response = Ok body
                 /\ getitem body (lit "value") = Ok results
                 /\ iterate results = Ok docs
                 /\ index_comprehension docs [] = Ok d)).
Proof.
  intros H.
  destruct (requests_post W (search_url base_url index_name)
              (request_headers api_key) query) as [response|e] eqn:Hpost.
  - exists response. split; [reflexivity|].
    destruct (Z.eq_dec (status_code response) 200) as [Hcode|Hcode].
    + right. rewrite (search_index_success _ _ _ _ Hpost Hcode) in H.
      injection H as <- H. split; [exact Hcode | split; [reflexivity|]].
      destruct (json response) as [body|e] eqn:Hj; [|discriminate].
      cbn [bindR] in H.
      destruct (getitem body (lit "value")) as [results|e] eqn:Hv; [|discriminate].
      cbn [bindR] in H.
      destruct (iterate results) as [docs|e] eqn:Hi; [|discriminate].
      cbn [bindR] in H. exists body, results, docs. auto.
    + left. rewrite (search_index_failure _ _ _ _ Hpost Hcode) in H.
      injection H as <- <-. auto.
  - rewrite (search_index_transport_error _ _ _ _ Hpost) in H. discriminate H.
Qed.

Lemma search_index_wf (W : World) (base_url index_name api_key : str)
  (t : trace) (index_data : dict value) :
  search_index W base_url index_name api_key = (t, Ok index_data) ->
  dict_wf index_data.
Proof.
  intros H.
  apply search_index_returns in H as [response [_ [[_ [-> _]] | [_ [_ H]]]]].
  - apply dict_wf_nil.
  - destruct H as [body [results [docs [_ [_ [_ H]]]]]].
    eapply index_comprehension_wf; [exact H | apply dict_wf_nil].
Qed.

Lemma load_csv_from_blob_wf (W : World) (conn container blob : str)
  (t : trace) (csv_data : dict cell) :
  load_csv_from_blob W conn container blob = (t, Ok csv_data) ->
  dict_wf csv_data.
Proof.
  intros H. apply loaded_ok in H as [_ H].
  destruct (download_blob W conn container blob) as [text|e]; [|discriminate].
  cbn [bindR] in H. destruct (read_csv W text) as [df|e]; [|discriminate].
  cbn [bindR] in H. eapply csv_comprehension_wf; [exact H | apply dict_wf_nil].
Qed.

(** X3: whenever [search_index] or [load_csv_from_blob] returns a
    snapshot, the snapshot's keys are pairwise different under [==]. *)
Theorem snapshots_have_distinct_keys (W : World) :
  (forall base_url index_name api_key t index_data,
      search_index W base_url index_name api_key = (t, Ok index_data) ->
      dict_wf index_data)
  /\ (forall conn container blob t csv_data,
         load_csv_from_blob W conn container blob = (t, Ok csv_data) ->
         dict_wf csv_data).
Proof.
  split.
  - intros base_url index_name api_key t index_data H.
    exact (search_index_wf _ _ _ _ H).
  - intros conn container blob t csv_data H.
    exact (load_csv_from_blob_wf _ _ _ _ H).
Qed.

Lemma snapshots_have_distinct_keys_witness :
  dict_wf [ (KStr (lit "A"), VStr (lit "new")); (KStr (lit "B"), VStr (lit "y")) ]
  /\ dict_wf [ (KStr (lit "A"), CStr (lit "second")) ].
Proof.
  split.
  - refine (proj1 (snapshots_have_distinct_keys duplicate_ids_world)
              (base_url_of sample_args) (index_name sample_args)
              (api_key sample_args) [_] _ _).
    vm_compute. reflexivity.
  - refine (proj2 (snapshots_have_distinct_keys duplicate_ids_world)
              (connection_string sample_args) (container_name sample_args)
              (file_name sample_args) [_] _ _).
    vm_compute. reflexivity.
Defined.

(** ** The order of the index snapshot *)

Lemma dict_contains_eqb {V} (d : dict V) (a b : key) :
  key_eqb a b = true -> dict_contains d a = dict_contains d b.
Proof.
  intros H. unfold dict_contains.
  induction d as [|[k v] d IH]; simpl; [reflexivity|].
  rewrite (key_eqb_sym k a), (key_eqb_sym k b), (key_eqb_compat _ _ k H).
  destruct (key_eqb b k); [reflexivity | exact IH].
Qed.

Lemma dict_keys_set_exact {V} (d : dict V) (k : key) (v : V) :
  dict_keys (dict_set d k v) =
  if dict_contains d k then dict_keys d else dict_keys d ++ [k].
Proof.
  unfold dict_contains.
  induction d as [|[k0 v0] d IH]; simpl; [reflexivity|].
  destruct (key_eqb k0 k); simpl; [reflexivity|].
  rewrite IH. now destruct (dict_get d k).
Qed.

Lemma unseen_keys_filter {V} (d : dict V) (k : key) (v : V) (ks : list key) :
  filter (fun k' => negb (dict_contains d k'))
         (filter (fun k' => negb (key_eqb k k')) ks)
  = filter (fun k' => negb (dict_contains (dict_set d k v) k')) ks.
Proof.
  induction ks as [|k' ks IH]; simpl; [reflexivity|].
  rewrite dict_contains_set.
  destruct (key_eqb k k'); simpl; [exact IH|].
  destruct (dict_contains d k'); simpl; [exact IH | now rewrite IH].
Qed.

Lemma dict_keys_fold {V} (items : list (key * V)) (d : dict V) :
  dict_keys (fold_left (fun acc kv => dict_set acc (fst kv) (snd kv)) items d)
  = dict_keys d
    ++ filter (fun k => negb (dict_contains d k))
              (first_occurrences (map fst items)).
Proof.
  revert d; induction items as [|[k v] items IH]; intros d; simpl.
  - now rewrite app_nil_r.
  - rewrite IH, dict_keys_set_exact, (unseen_keys_filter d k v).
    destruct (dict_contains d k); simpl.
    + reflexivity.
    + now rewrite <- app_assoc.
Qed.

Lemma index_comprehension_ok_inv (docs : list value) (acc d : dict value) :
  index_comprehension docs acc = Ok d ->
  exists items, map_all doc_fields docs = Some items.
Proof.
  revert acc; induction docs as [|doc docs IH]; intros acc; simpl.
  - intros _. now exists [].
  - unfold doc_fields at 1.
    destruct (getitem doc (lit "id")) as [i|e]; [|discriminate].
    destruct (getitem doc (lit "content")) as [c|e]; [|discriminate].
    simpl. destruct (hashable i) as [k|]; [|discriminate].
    intros H. apply IH in H as [items ->]. now eexists.
Qed.

(** X2: the index snapshot that [search_index] builds from a list of
    results lists the ids in the order of their first occurrence among the
    results, a repeated id keeping the place of its first occurrence. *)
Theorem index_snapshot_keeps_first_occurrence_order
  (W : World) (base_url index_name api_key : str) (response : Response)
  (results : value) (docs : list value) (t : trace) (index_data : dict value) :
  requests_post W (search_url base_url index_name) (request_headers api_key) query
  = Ok response ->
  status_code response = 200%Z ->
  json response = Ok results ->
  getitem results (lit "value") = Ok (VList docs) ->
  search_index W base_url index_name api_key = (t, Ok index_data) ->
  exists items,
    map_all doc_fields docs = Some items
    /\ dict_keys index_data = first_occurrences (map fst items).
Proof.
  intros Hpost Hcode Hjson Hvalue H.
  rewrite (search_index_success _ _ _ _ Hpost Hcode), Hjson in H.
  cbn [bindR] in H. rewrite Hvalue in H. cbn [bindR iterate] in H.
  injection H as _ H.
  destruct (index_comprehension_ok_inv _ _ H) as [items Hitems].
  exists items. split; [exact Hitems|].
  rewrite (index_comprehension_fields _ _ Hitems) in H. injection H as <-.
  rewrite dict_keys_fold. cbn [dict_keys map app]. unfold dict_contains.
  induction (first_occurrences (map fst items)) as [|k l IH]; simpl;
    [reflexivity | f_equal; exact IH].
Qed.

Lemma index_snapshot_order_witness :
  exists items,
    map_all doc_fields
      [ document (VStr (lit "A")) (VStr (lit "old"));
        document (VStr (lit "B")) (VStr (lit "y"));
        document (VStr (lit "A")) (VStr (lit "new")) ] = Some items
    /\ dict_keys [ (KStr (lit "A"), VStr (lit "new")); (KStr (lit "B"), VStr (lit "y")) ]
       = first_occurrences (map fst items).
Proof.
  refine (@index_snapshot_keeps_first_occurrence_order duplicate_ids_world
            (base_url_of sample_args) (index_name sample_args)
            (api_key sample_args)
            {| status_code := 200; text := lit "{...}";
               json := Ok (VDict [ (KStr (lit "@odata.context"), VStr (lit "ctx"));
                                   (KStr (lit "value"),
                                    VList [document (VStr (lit "A")) (VStr (lit "old"));
                                           document (VStr (lit "B")) (VStr (lit "y"));
                                           document (VStr (lit "A")) (VStr (lit "new"))]) ]) |}
            _ _ [_] _ _ _ _ _ _).
  - reflexivity.
  - reflexivity.
  - reflexivity.
  - reflexivity.
  - vm_compute. reflexivity.
Defined.

(** ** The search request and what ends the Index Reader *)

Lemma fst_bind {A B} (m : M A) (f : A -> M B) :
  exists rest, fst (bind m f) = fst m ++ rest.
Proof.
  destruct m as [t [a|e]]; simpl.
  - destruct (f a) as [t' r]. now exists t'.
  - exists []. now rewrite app_nil_r.
Qed.

(** X1: whatever the service answers, [search_index] issues exactly one
    request, a POST to {base}/indexes/{index}/docs/search?api-version=2024-07-01
    with the [api-key] header and the body {search: "*", select: "id,
    content"}, and prints at most one line after it; that request is the
    first event of every run. *)
Theorem search_index_sends_one_search_request
  (repr_str : str -> str) (W : World) (args : Args) :
  let request :=
    Post (base_url_of args ++ lit "/indexes/" ++ index_name args
          ++ lit "/docs/search?api-version=2024-07-01")
         (VDict [ (KStr (lit "Content-Type"), VStr (lit "application/json"));
                  (KStr (lit "api-key"), VStr (api_key args)) ])
         (VDict [ (KStr (lit "search"), VStr (lit "*"));
                  (KStr (lit "select"), VStr (lit "id, content")) ]) in
  (exists lines,
      fst (search_index W (base_url_of args) (index_name args) (api_key args))
      = request :: map Print lines
      /\ List.length lines <= 1)
  /\ (exists rest, fst (main repr_str W args) = request :: rest).
Proof.
  intros request.
  assert (H : exists lines,
    fst (search_index W (base_url_of args) (index_name args) (api_key args))
    = request :: map Print lines /\ List.length lines <= 1).
  { destruct (requests_post W (search_url (base_url_of args) (index_name args))
                (request_headers (api_key args)) query) as [response|e] eqn:E.
    - destruct (Z.eq_dec (status_code response) 200) as [Hc|Hc].
      + rewrite (search_index_success _ _ _ _ E Hc). exists []. simpl. auto.
      + rewrite (search_index_failure _ _ _ _ E Hc). eexists [_]. simpl. auto.
    - rewrite (search_index_transport_error _ _ _ _ E). exists []. simpl. auto. }
  split; [exact H|].
  destruct H as [lines [H _]]. unfold main.
  destruct (fst_bind
              (search_index W (base_url_of args) (index_name args) (api_key args))
              (fun index_data =>
                 csv_data <- load_csv_from_blob W (connection_string args)
                               (container_name args) (file_name args) ;;
                 match missing_ids index_data csv_data with
                 | _ :: _ =>
                     delete_documents_from_index repr_str W (base_url_of args)
                       (index_name args) (api_key args)
                       (missing_ids index_data csv_data) index_data
                 | [] => print noop_line
                 end)) as [rest Hrest].
  rewrite Hrest, H. eexists. reflexivity.
Qed.

(** X6: an exception raised by [requests.post] on the search call, or by
    [response.json()] on a 200 response, ends the run as it is: the search
    request is the only event, the blob is not downloaded and nothing is
    deleted. *)
Theorem search_exception_ends_the_run
  (repr_str : str -> str) (W : World) (args : Args) (e : exn) :
  let answer :=
    requests_post W (search_url (base_url_of args) (index_name args))
                  (request_headers (api_key args)) query in
  let request :=
    Post (search_url (base_url_of args) (index_name args))
         (request_headers (api_key args)) query in
  (answer = Raise e -> main repr_str W args = ([request], Raise e))
  /\ (forall response,
         answer = Ok response ->
         status_code response = 200%Z ->
         json response = Raise e ->
         main repr_str W args = ([request], Raise e)).
Proof.
  intros answer request. split.
  - intros H. apply main_search_raises.
    apply (search_index_transport_error _ _ _ _ H).
  - intros response H Hcode Hjson. apply main_search_raises.
    rewrite (search_index_success _ _ _ _ H Hcode), Hjson. reflexivity.
Qed.

Lemma search_exception_witness :
  main (fun s => s) unreachable_world sample_args
  = ([ Post (search_url (base_url_of sample_args) (index_name sample_args))
            (request_headers (api_key sample_args)) query ],
     Raise (LibraryError (lit "ConnectionError")))
  /\ main (fun s => s) not_json_world sample_args
     = ([ Post (search_url (base_url_of sample_args) (index_name sample_args))
               (request_headers (api_key sample_args)) query ],
        Raise (LibraryError (lit "JSONDecodeError"))).
Proof.
  split.
  - refine (proj1 (@search_exception_ends_the_run (fun s => s) unreachable_world
                     sample_args (LibraryError (lit "ConnectionError"))) _).
    reflexivity.
  - refine (proj2 (@search_exception_ends_the_run (fun s => s) not_json_world
                     sample_args (LibraryError (lit "JSONDecodeError")))
              {| status_code := 200; text := lit "<html>";
                 json := Raise (LibraryError (lit "JSONDecodeError")) |} _ _ _).
    + reflexivity.
    + reflexivity.
    + reflexivity.
Defined.

(** X7: a 200 response whose [value] holds nothing to iterate (an empty
    list, but also an empty object or an empty string) gives the empty index
    snapshot without a printed line; the run then deletes nothing and ends as
    the Reference Loader ends. *)
Theorem empty_result_deletes_nothing
  (repr_str : str -> str) (W : World) (args : Args)
  (response : Response) (body results : value) :
  requests_post W (search_url (base_url_of args) (index_name args))
                (request_headers (api_key args)) query = Ok response ->
  status_code response = 200%Z ->
  json response = Ok body ->
  getitem body (lit "value") = Ok results ->
  iterate results = Ok [] ->
  let request :=
    Post (search_url (base_url_of args) (index_name args))
         (request_headers (api_key args)) query in
  let download :=
    Download (connection_string args) (container_name args) (file_name args) in
  search_index W (base_url_of args) (index_name args) (api_key args)
  = ([request], Ok [])
  /\ main repr_str W args =
     match snd (load_csv_from_blob W (connection_string args)
                  (container_name args) (file_name args)) with
     | Ok _ => ([request; download; Print noop_line], Ok tt)
     | Raise e => ([request; download], Raise e)
     end.
Proof.
  intros Hpost Hcode Hjson Hvalue Hiter request download.
  assert (Hs : search_index W (base_url_of args) (index_name args) (api_key args)
               = ([request], Ok [])).
  { rewrite (search_index_success _ _ _ _ Hpost Hcode), Hjson. cbn [bindR].
    rewrite Hvalue. cbn [bindR]. rewrite Hiter. reflexivity. }
  split; [exact Hs|].
  rewrite load_csv_from_blob_eq. cbn [snd].
  destruct (bindR _ _) as [csv_data|e] eqn:Hl.
  - rewrite (main_reconciles repr_str _ _ Hs Hl). reflexivity.
  - rewrite (main_loader_raises repr_str _ _ Hs Hl). reflexivity.
Qed.

Lemma empty_result_witness :
  main (fun s => s) empty_index_world sample_args
  = ([ Post (search_url (base_url_of sample_args) (index_name sample_args))
            (request_headers (api_key sample_args)) query;
       Download (connection_string sample_args) (container_name sample_args)
                (file_name sample_args);
       Print noop_line ],
     Ok tt).
Proof.
  refine (proj2
    (@empty_result_deletes_nothing (fun s => s) empty_index_world sample_args
       {| status_code := 200; text := lit "{...}";
          json := Ok (VDict [ (KStr (lit "@odata.context"), VStr (lit "ctx"));
                              (KStr (lit "value"), VList []) ]) |}
       (VDict [ (KStr (lit "@odata.context"), VStr (lit "ctx"));
                (KStr (lit "value"), VList []) ])
       (VList []) _ _ _ _ _)).
  - reflexivity.
  - reflexivity.
  - reflexivity.
  - reflexivity.
  - reflexivity.
Defined.

(** ** The delete requests of a run *)

Lemma log_candidates_prints repr_str (ids : list key) (index_data : dict value) :
  exists lines, fst (log_candidates repr_str ids index_data) = map Print lines.
Proof.
  induction ids as [|k ids [lines IH]]; cbn [log_candidates].
  - now exists [].
  - destruct (slice_to 30 _) as [preview|e]; unfold bind, lift, print.
    + destruct (log_candidates repr_str ids index_data) as [t r].
      cbn [fst] in IH. subst t. eexists (_ :: lines). reflexivity.
    + now exists [].
Qed.

Lemma log_candidates_ok_inv repr_str (ids : list key) (index_data : dict value) t :
  log_candidates repr_str ids index_data = (t, Ok tt) ->
  forallb (fun k => previewable (content_of index_data k)) ids = true.
Proof.
  revert t; induction ids as [|k ids IH]; intros t; cbn [log_candidates forallb].
  - reflexivity.
  - fold (content_of index_data k).
    destruct (content_of index_data k) as [| | |s|l|d]; cbn [slice_to previewable];
      unfold bind, lift, print; try discriminate;
      destruct (log_candidates repr_str ids index_data) as [t0 [[]|e]];
      try discriminate; intros _; exact (IH _ eq_refl).
Qed.

Lemma delete_documents_delete_requests
  repr_str (W : World) (base_url index_name api_key : str)
  (ids : list key) (index_data : dict value) :
  delete_requests base_url index_name
    (fst (delete_documents_from_index repr_str W base_url index_name api_key
            ids index_data))
  = match snd (log_candidates repr_str ids index_data) with
    | Ok _ => [ Post (delete_url base_url index_name) (request_headers api_key)
                     (delete_data ids) ]
    | Raise _ => []
    end.
Proof.
  destruct (log_candidates_prints repr_str ids index_data) as [lines Hlines].
  destruct (log_candidates repr_str ids index_data) as [t [[]|e]] eqn:Hlog;
    cbn [fst snd] in *; subst t.
  - rewrite (@delete_documents_sends repr_str W base_url index_name api_key
               ids index_data _ Hlog).
    pose proof (delete_requests_prints base_url index_name lines) as Hp.
    unfold delete_requests in *.
    destruct (requests_post W _ _ _) as [response|e];
      cbn [fst filter is_delete_request]; rewrite filter_app, Hp;
      cbn [app filter]; rewrite is_delete_request_delete; reflexivity.
  - rewrite (@delete_documents_logging_raises repr_str W base_url index_name
               api_key ids index_data _ e Hlog).
    cbn [fst]. unfold delete_requests. cbn [filter is_delete_request].
    apply delete_requests_prints.
Qed.

(** The delete requests of a run, by the way the run goes. *)
Lemma main_delete_requests (repr_str : str -> str) (W : World) (args : Args) :
  delete_requests (base_url_of args) (index_name args)
    (fst (main repr_str W args)) = []
  \/ exists t index_data t' csv_data,
       search_index W (base_url_of args) (index_name args) (api_key args)
       = (t, Ok index_data)
       /\ load_csv_from_blob W (connection_string args) (container_name args)
                             (file_name args) = (t', Ok csv_data)
       /\ missing_ids index_data csv_data <> []
       /\ forallb (fun k => previewable (content_of index_data k))
                  (missing_ids index_data csv_data) = true
       /\ delete_requests (base_url_of args) (index_name args)
            (fst (main repr_str W args))
          = [ Post (delete_url (base_url_of args) (index_name args))
                   (request_headers (api_key args))
                   (delete_data (missing_ids index_data csv_data)) ].
Proof.
  pose proof (search_index_no_delete W (base_url_of args) (index_name args)
                (api_key args)) as Hno.
  destruct (search_index W (base_url_of args) (index_name args) (api_key args))
    as [t [index_data|e]] eqn:Hs; cbn [fst] in Hno.
  - pose proof (load_csv_from_blob_eq W (connection_string args)
                  (container_name args) (file_name args)) as Hload.
    destruct (bindR _ _) as [csv_data|e] eqn:Hl.
    + rewrite (main_reconciles repr_str _ _ Hs Hl).
      destruct (missing_ids index_data csv_data) as [|k ids] eqn:Hids.
      * left. cbn [fst]. rewrite delete_requests_app, Hno. reflexivity.
      * pose proof (delete_documents_delete_requests repr_str W
                      (base_url_of args) (index_name args) (api_key args)
                      (k :: ids) index_data) as Hd.
        destruct (delete_documents_from_index _ _ _ _ _ _ _) as [td r].
        cbn [fst] in *.
        assert (Hsame :
          delete_requests (base_url_of args) (index_name args)
            (t ++ Download (connection_string args) (container_name args)
                           (file_name args) :: td)
          = delete_requests (base_url_of args) (index_name args) td).
        { rewrite delete_requests_app, Hno. reflexivity. }
        rewrite Hsame, Hd.
        destruct (log_candidates repr_str (k :: ids) index_data)
          as [tl [[]|e]] eqn:Hlog; cbn [snd].
        -- right.
           exists t, index_data,
                  [Download (connection_string args) (container_name args)
                            (file_name args)], csv_data.
           rewrite Hids. repeat split; try reflexivity.
           ++ exact Hload.
           ++ discriminate.
           ++ exact (@log_candidates_ok_inv repr_str (k :: ids) index_data tl Hlog).
        -- now left.
    + left. rewrite (main_loader_raises repr_str _ _ Hs Hl). cbn [fst].
      rewrite delete_requests_app, Hno. reflexivity.
  - left. rewrite (main_search_raises repr_str _ _ Hs). exact Hno.
Qed.

Lemma deleted_ids_delete_data (url : str) (headers : value) (ids : list key) :
  deleted_ids (Post url headers (delete_data ids)) = map key_value ids.
Proof.
  unfold delete_data. cbn [deleted_ids].
  induction ids as [|k ids IH]; [reflexivity|].
  cbn [map flat_map]. rewrite IH. reflexivity.
Qed.

Lemma missing_ids_distinct (index_data : dict value) (csv_data : dict cell) :
  dict_wf index_data -> NoDup (map key_norm (missing_ids index_data csv_data)).
Proof.
  unfold dict_wf, missing_ids.
  induction (dict_keys index_data) as [|k ks IH]; simpl; intros H; [constructor|].
  inversion H as [|n ns Hnew Hrest]; subst.
  destruct (dict_contains csv_data k); simpl; auto.
  constructor; auto.
  intros Hin. apply Hnew. apply in_map_iff in Hin as [k' [Hk' Hin]].
  apply filter_In in Hin as [Hin _]. rewrite <- Hk'. now apply in_map.
Qed.

(** X10: no run issues more than one delete request, whatever the search
    service and the storage answer. *)
Theorem at_most_one_delete_request
  (repr_str : str -> str) (W : World) (args : Args) :
  List.length (delete_requests (base_url_of args) (index_name args)
                 (fst (main repr_str W args))) <= 1.
Proof.
  destruct (main_delete_requests repr_str W args)
    as [-> | [t [index_data [t' [csv_data [_ [_ [_ [_ ->]]]]]]]]]; simpl; lia.
Qed.

(** X11: a delete request of a run names exactly the deletion set of the
    two snapshots the run loaded: every id it names is a key of the index
    snapshot that is not a key of the reference snapshot, and no id is named
    twice. *)
Theorem delete_request_names_the_deletion_set
  (repr_str : str -> str) (W : World) (args : Args) (e : event) :
  In e (delete_requests (base_url_of args) (index_name args)
          (fst (main repr_str W args))) ->
  exists t index_data t' csv_data,
    search_index W (base_url_of args) (index_name args) (api_key args)
    = (t, Ok index_data)
    /\ load_csv_from_blob W (connection_string args) (container_name args)
                          (file_name args) = (t', Ok csv_data)
    /\ deleted_ids e = map key_value (missing_ids index_data csv_data)
    /\ NoDup (map key_norm (missing_ids index_data csv_data))
    /\ forall k, In k (missing_ids index_data csv_data) ->
                 In k (dict_keys index_data)
                 /\ dict_contains csv_data k = false.
Proof.
  intros Hin.
  destruct (main_delete_requests repr_str W args)
    as [H | [t [index_data [t' [csv_data [Hs [Hl [_ [_ H]]]]]]]]];
    rewrite H in Hin.
  - destruct Hin.
  - destruct Hin as [<- | []].
    exists t, index_data, t', csv_data. repeat split; try assumption.
    + apply deleted_ids_delete_data.
    + apply missing_ids_distinct. exact (search_index_wf _ _ _ _ Hs).
    + unfold missing_ids in H0. apply filter_In in H0. tauto.
    + unfold missing_ids in H0. apply filter_In in H0 as [_ H0].
      now apply negb_true_iff in H0.
Qed.

Lemma delete_request_witness :
  exists t index_data t' csv_data,
    search_index forbidden_delete_world (base_url_of sample_args)
                 (index_name sample_args) (api_key sample_args)
    = (t, Ok index_data)
    /\ load_csv_from_blob forbidden_delete_world (connection_string sample_args)
                          (container_name sample_args) (file_name sample_args)
       = (t', Ok csv_data)
    /\ deleted_ids (Post (delete_url (base_url_of sample_args)
                                     (index_name sample_args))
                         (request_headers (api_key sample_args))
                         (delete_data [KStr (lit "B")]))
       = map key_value (missing_ids index_data csv_data)
    /\ NoDup (map key_norm (missing_ids index_data csv_data))
    /\ forall k, In k (missing_ids index_data csv_data) ->
                 In k (dict_keys index_data)
                 /\ dict_contains csv_data k = false.
Proof.
  refine (@delete_request_names_the_deletion_set (fun s => s)
            forbidden_delete_world sample_args _ _).
  vm_compute. left. reflexivity.
Defined.

Lemma main_sends_deletion_set (repr_str : str -> str) (W : World) (args : Args)
  t t' (index_data : dict value) (csv_data : dict cell) :
  search_index W (base_url_of args) (index_name args) (api_key args)
  = (t, Ok index_data) ->
  load_csv_from_blob W (connection_string args) (container_name args)
                     (file_name args) = (t', Ok csv_data) ->
  missing_ids index_data csv_data <> [] ->
  forallb (fun k => previewable (content_of index_data k))
          (missing_ids index_data csv_data) = true ->
  main repr_str W args =
  match requests_post W (delete_url (base_url_of args) (index_name args))
          (request_headers (api_key args))
          (delete_data (missing_ids index_data csv_data)) with
  | Ok response =>
      (t ++ t'
       ++ Print (lit "Deleting the following documents:")
       :: map (fun k => Print (candidate_line repr_str k
                                 (preview_of (content_of index_data k))))
              (missing_ids index_data csv_data)
       ++ [ Post (delete_url (base_url_of args) (index_name args))
                 (request_headers (api_key args))
                 (delete_data (missing_ids index_data csv_data));
            Print (if Z.eqb (status_code response) 200
                   then delete_success_line (missing_ids index_data csv_data)
                   else delete_error_line response) ],
       Ok tt)
  | Raise e =>
      (t ++ t'
       ++ Print (lit "Deleting the following documents:")
       :: map (fun k => Print (candidate_line repr_str k
                                 (preview_of (content_of index_data k))))
              (missing_ids index_data csv_data)
       ++ [ Post (delete_url (base_url_of args) (index_name args))
                 (request_headers (api_key args))
                 (delete_data (missing_ids index_data csv_data)) ],
       Raise e)
  end.
Proof.
  intros Hs Hl Hne Hprev. apply loaded_ok in Hl as [-> Hl].
  rewrite (main_reconciles repr_str _ _ Hs Hl).
  pose proof (@log_candidates_ok repr_str index_data _ Hprev) as Hlog.
  pose proof (@delete_documents_sends repr_str W (base_url_of args)
                (index_name args) (api_key args) _ index_data _ Hlog) as Hsend.
  destruct (missing_ids index_data csv_data) as [|k ids]; [contradiction|].
  rewrite Hsend. destruct (requests_post W _ _ _); reflexivity.
Qed.

(** X5: when the delete request is answered 200, the run prints
    "Successfully deleted N documents." with N the size of the deletion set
    it sent, after the heading, one line per candidate and the request, and
    ends normally. *)
Theorem successful_delete_reports_the_count
  (repr_str : str -> str) (W : World) (args : Args)
  (t t' : trace) (index_data : dict value) (csv_data : dict cell)
  (response : Response) :
  search_index W (base_url_of args) (index_name args) (api_key args)
  = (t, Ok index_data) ->
  load_csv_from_blob W (connection_string args) (container_name args)
                     (file_name args) = (t', Ok csv_data) ->
  let ids := missing_ids index_data csv_data in
  ids <> [] ->
  forallb (fun k => previewable (content_of index_data k)) ids = true ->
  requests_post W (delete_url (base_url_of args) (index_name args))
                (request_headers (api_key args)) (delete_data ids)
  = Ok response ->
  status_code response = 200%Z ->
  main repr_str W args =
  (t ++ t'
   ++ Print (lit "Deleting the following documents:")
   :: map (fun k => Print (candidate_line repr_str k
                             (preview_of (content_of index_data k)))) ids
   ++ [ Post (delete_url (base_url_of args) (index_name args))
             (request_headers (api_key args)) (delete_data ids);
        Print (lit "Successfully deleted "
               ++ str_of_int (Z.of_nat (List.length ids))
               ++ lit " documents.") ],
   Ok tt).
Proof.
  intros Hs Hl ids Hne Hprev Hpost Hcode.
  rewrite (main_sends_deletion_set repr_str W args Hs Hl Hne Hprev).
  fold ids. rewrite Hpost. apply Z.eqb_eq in Hcode. rewrite Hcode. reflexivity.
Qed.

Lemma successful_delete_witness :
  main (fun s => s) out_of_sync_world sample_args =
  ([ Post (search_url (base_url_of sample_args) (index_name sample_args))
          (request_headers (api_key sample_args)) query;
     Download (connection_string sample_args) (container_name sample_args)
              (file_name sample_args);
     Print (lit "Deleting the following documents:");
     Print (lit "ID: B, y...");
     Print (lit "ID: 7, z...");
     Post (delete_url (base_url_of sample_args) (index_name sample_args))
          (request_headers (api_key sample_args))
          (delete_data [KStr (lit "B"); KInt 7]);
     Print (lit "Successfully deleted 2 documents.") ],
   Ok tt).
Proof.
  refine (@successful_delete_reports_the_count (fun s => s) out_of_sync_world
            sample_args [_] [_]
            [ (KStr (lit "A"), VStr (lit "x")); (KStr (lit "B"), VStr (lit "y"));
              (KInt 7, VStr (lit "z")) ]
            [ (KStr (lit "A"), CStr (lit "x")); (KStr (lit "7"), CStr (lit "z")) ]
            {| status_code := 200; text := lit "{}";
               json := Raise (LibraryError (lit "JSONDecodeError")) |}
            _ _ _ _ _ _).
  - vm_compute. reflexivity.
  - vm_compute. reflexivity.
  - vm_compute. discriminate.
  - vm_compute. reflexivity.
  - vm_compute. reflexivity.
  - reflexivity.
Defined.

(** ** The deletion set, from the rows of the CSV *)

Lemma reference_snapshot_keys (rws : list Series) (csv_data : dict cell) :
  csv_comprehension rws [] = Ok csv_data ->
  forall k, dict_contains csv_data k = true <->
            exists row i, In row rws
                          /\ series_getitem row (lit "id") = Ok i
                          /\ k = KStr (format_cell i).
Proof.
  intros H. destruct (csv_comprehension_ok_inv _ _ H) as [items Hitems].
  rewrite (csv_comprehension_fields _ _ Hitems) in H. injection H as <-.
  intros k. rewrite dict_contains_fold. simpl. rewrite existsb_exists. split.
  - intros [[k0 c] [Hin Heq]]. simpl in Heq.
    apply (map_all_In _ _ Hitems) in Hin as [row [Hrow Hf]].
    unfold row_fields in Hf.
    destruct (series_getitem row (lit "id")) as [i|e] eqn:Ei; [|discriminate].
    destruct (series_getitem row (lit "content")) as [c'|e]; [|discriminate].
    injection Hf as <- <-. apply key_eqb_KStr in Heq. exists row, i. auto.
  - intros [row [i [Hrow [Hi ->]]]].
    assert (Hsome : forall l ys, map_all row_fields l = Some ys ->
                                 In row l -> row_fields row <> None).
    { induction l as [|x l IHl]; intros ys Hys Hx; [destruct Hx|].
      simpl in Hys. destruct (row_fields x) eqn:Ex; [|discriminate].
      destruct (map_all row_fields l) eqn:El; [|discriminate].
      destruct Hx as [->|Hx]; [congruence | eauto]. }
    pose proof (Hsome _ _ Hitems Hrow) as Hne. clear Hsome.
    destruct (row_fields row) as [[k0 c]|] eqn:Ef; [|now elim Hne].
    exists (k0, c). split.
    + apply (map_all_In _ _ Hitems). exists row. auto.
    + unfold row_fields in Ef. rewrite Hi in Ef.
      destruct (series_getitem row (lit "content")); [|discriminate].
      injection Ef as <- <-. apply key_eqb_refl.
Qed.

(** X9: an id of the index snapshot is selected for deletion exactly when
    no row of the CSV has an id whose string form is that id; in particular
    an index id that is not a string (a JSON number, boolean or null) is
    always selected, whatever the CSV holds. *)
Theorem deletion_set_from_the_rows
  (W : World) (conn container blob : str) (t : trace)
  (text : str) (df : DataFrame) (csv_data : dict cell) :
  download_blob W conn container blob = Ok text ->
  read_csv W text = Ok df ->
  load_csv_from_blob W conn container blob = (t, Ok csv_data) ->
  (forall (index_data : dict value) k,
      In k (missing_ids index_data csv_data) <->
      In k (dict_keys index_data)
      /\ forall row i, In row (iterrows df) ->
                       series_getitem row (lit "id") = Ok i ->
                       k <> KStr (format_cell i))
  /\ (forall (index_data : dict value) k,
         In k (dict_keys index_data) ->
         (forall s, k <> KStr s) ->
         In k (missing_ids index_data csv_data)).
Proof.
  intros Hd Hp Hl. apply loaded_ok in Hl as [_ Hl].
  rewrite Hd in Hl. cbn [bindR] in Hl. rewrite Hp in Hl. cbn [bindR] in Hl.
  pose proof (reference_snapshot_keys _ Hl) as Hkeys.
  assert (Hiff : forall (index_data : dict value) k,
    In k (missing_ids index_data csv_data) <->
    In k (dict_keys index_data)
    /\ forall row i, In row (iterrows df) ->
                     series_getitem row (lit "id") = Ok i ->
                     k <> KStr (format_cell i)).
  { intros index_data k. unfold missing_ids.
    rewrite filter_In, negb_true_iff. split; intros [Hin Hc]; split; auto.
    - intros row i Hrow Hi ->.
      assert (dict_contains csv_data (KStr (format_cell i)) = true)
        by (apply Hkeys; eauto).
      congruence.
    - destruct (dict_contains csv_data k) eqn:E; [|reflexivity].
      apply Hkeys in E as [row [i [Hrow [Hi ->]]]].
      exfalso. exact (Hc row i Hrow Hi eq_refl). }
  split; [exact Hiff|].
  intros index_data k Hin Hns. apply Hiff. split; [exact Hin|].
  intros row i _ _. apply Hns.
Qed.

Lemma deletion_set_from_the_rows_witness :
  In (KInt 7)
     (missing_ids [ (KStr (lit "A"), VStr (lit "x")); (KInt 7, VStr (lit "z")) ]
                  [ (KStr (lit "A"), CStr (lit "x")); (KStr (lit "7"), CStr (lit "z")) ]).
Proof.
  refine (proj2
    (@deletion_set_from_the_rows out_of_sync_world
       (connection_string sample_args) (container_name sample_args)
       (file_name sample_args) [_] (lit "csv text")
       {| columns := [lit "id"; lit "content"];
          rows := [[CStr (lit "A"); CStr (lit "x")]; [CInt 7; CStr (lit "z")]] |}
       [ (KStr (lit "A"), CStr (lit "x")); (KStr (lit "7"), CStr (lit "z")) ]
       _ _ _)
    [ (KStr (lit "A"), VStr (lit "x")); (KInt 7, VStr (lit "z")) ] (KInt 7) _ _).
  - reflexivity.
  - reflexivity.
  - vm_compute. reflexivity.
  - right. left. reflexivity.
  - discriminate.
Defined.

Lemma main_delete_requests_sent (repr_str : str -> str) (W : World) (args : Args)
  t t' (index_data : dict value) (csv_data : dict cell) :
  search_index W (base_url_of args) (index_name args) (api_key args)
  = (t, Ok index_data) ->
  load_csv_from_blob W (connection_string args) (container_name args)
                     (file_name args) = (t', Ok csv_data) ->
  missing_ids index_data csv_data <> [] ->
  forallb (fun k => previewable (content_of index_data k))
          (missing_ids index_data csv_data) = true ->
  delete_requests (base_url_of args) (index_name args)
    (fst (main repr_str W args))
  = [ Post (delete_url (base_url_of args) (index_name args))
           (request_headers (api_key args))
           (delete_data (missing_ids index_data csv_data)) ].
Proof.
  intros Hs Hl Hne Hprev. apply loaded_ok in Hl as [_ Hl].
  pose proof (search_index_no_delete W (base_url_of args) (index_name args)
                (api_key args)) as Hno.
  rewrite Hs in Hno. cbn [fst] in Hno.
  rewrite (main_reconciles repr_str _ _ Hs Hl).
  pose proof (delete_documents_delete_requests repr_str W (base_url_of args)
                (index_name args) (api_key args)
                (missing_ids index_data csv_data) index_data) as Hd.
  rewrite (@log_candidates_ok repr_str index_data _ Hprev) in Hd. cbn [snd] in Hd.
  destruct (missing_ids index_data csv_data) as [|k ids]; [contradiction|].
  destruct (delete_documents_from_index _ _ _ _ _ _ _) as [td r].
  cbn [fst] in *. rewrite delete_requests_app, Hno. exact Hd.
Qed.

(** X8: a CSV without data row gives the empty reference snapshot,
    whatever its header; the deletion set is then the whole index snapshot,
    and the run asks to delete every indexed id. *)
Theorem csv_without_rows_selects_every_index_id
  (repr_str : str -> str) (W : World) (args : Args)
  (text : str) (df : DataFrame) (t : trace) (index_data : dict value) :
  download_blob W (connection_string args) (container_name args) (file_name args)
  = Ok text ->
  read_csv W text = Ok df ->
  rows df = [] ->
  search_index W (base_url_of args) (index_name args) (api_key args)
  = (t, Ok index_data) ->
  load_csv_from_blob W (connection_string args) (container_name args)
                     (file_name args)
  = ([Download (connection_string args) (container_name args) (file_name args)],
     Ok [])
  /\ missing_ids index_data [] = dict_keys index_data
  /\ (dict_keys index_data <> [] ->
      forallb (fun k => previewable (content_of index_data k))
              (dict_keys index_data) = true ->
      delete_requests (base_url_of args) (index_name args)
        (fst (main repr_str W args))
      = [ Post (delete_url (base_url_of args) (index_name args))
               (request_headers (api_key args))
               (delete_data (dict_keys index_data)) ]).
Proof.
  intros Hd Hp Hrows Hs.
  assert (Hl : load_csv_from_blob W (connection_string args) (container_name args)
                 (file_name args)
               = ([Download (connection_string args) (container_name args)
                            (file_name args)], Ok [])).
  { rewrite load_csv_from_blob_eq, Hd. cbn [bindR]. rewrite Hp. cbn [bindR].
    unfold iterrows. rewrite Hrows. reflexivity. }
  assert (Hall : missing_ids index_data (@nil (key * cell)) = dict_keys index_data).
  { unfold missing_ids.
    induction (dict_keys index_data) as [|k ks IH]; simpl;
      [reflexivity | f_equal; exact IH]. }
  split; [exact Hl | split; [exact Hall|]].
  intros Hne Hprev. rewrite <- Hall in Hne, Hprev |- *.
  exact (main_delete_requests_sent repr_str W args Hs Hl Hne Hprev).
Qed.

Lemma csv_without_rows_witness :
  delete_requests (base_url_of sample_args) (index_name sample_args)
    (fst (main (fun s => s) header_only_world sample_args))
  = [ Post (delete_url (base_url_of sample_args) (index_name sample_args))
           (request_headers (api_key sample_args))
           (delete_data [KStr (lit "A")]) ].
Proof.
  refine (proj2 (proj2
    (@csv_without_rows_selects_every_index_id (fun s => s) header_only_world
       sample_args (lit "csv text")
       {| columns := [lit "name"; lit "content"]; rows := [] |}
       [_] [ (KStr (lit "A"), VStr (lit "x")) ] _ _ _ _)) _ _).
  - reflexivity.
  - reflexivity.
  - reflexivity.
  - vm_compute. reflexivity.
  - vm_compute. discriminate.
  - vm_compute. reflexivity.
Defined.

(** ** The content that is logged *)

Lemma dict_get_key {V} (d : dict V) (k : key) :
  In k (dict_keys d) ->
  exists k' c, In (k', c) d /\ key_eqb k' k = true /\ dict_get d k = Some c.
Proof.
  induction d as [|[k0 c0] d IH]; simpl; [intros []|].
  destruct (key_eqb k0 k) eqn:E.
  - intros _. exists k0, c0. auto.
  - intros [->|Hin]; [now rewrite key_eqb_refl in E|].
    destruct (IH Hin) as [k' [c [Hc [He Hg]]]]. exists k', c. auto.
Qed.

(** X4: every id of the deletion set has an entry in the index snapshot,
    so the content logged for a candidate is the indexed one and the
    [.get] default "Content not available" is never what [main] logs for
    lack of an entry. *)
Theorem deletion_candidates_have_indexed_content
  (index_data : dict value) (csv_data : dict cell) (doc_id : key) :
  In doc_id (missing_ids index_data csv_data) ->
  exists k c,
    In (k, c) index_data
    /\ key_eqb k doc_id = true
    /\ dict_get index_data doc_id = Some c
    /\ content_of index_data doc_id = c.
Proof.
  unfold missing_ids. intros H. apply filter_In in H as [H _].
  destruct (dict_get_key _ _ H) as [k [c [Hin [He Hg]]]].
  exists k, c. unfold content_of. rewrite Hg. auto.
Qed.

Lemma deletion_candidates_witness :
  exists k c,
    In (k, c) [ (KStr (lit "A"), VStr (lit "x")); (KStr (lit "B"), VStr (lit "y")) ]
    /\ key_eqb k (KStr (lit "B")) = true
    /\ dict_get [ (KStr (lit "A"), VStr (lit "x")); (KStr (lit "B"), VStr (lit "y")) ]
                (KStr (lit "B")) = Some c
    /\ content_of [ (KStr (lit "A"), VStr (lit "x")); (KStr (lit "B"), VStr (lit "y")) ]
                  (KStr (lit "B")) = c.
Proof.
  refine (@deletion_candidates_have_indexed_content
            [ (KStr (lit "A"), VStr (lit "x")); (KStr (lit "B"), VStr (lit "y")) ]
            [ (KStr (lit "A"), CStr (lit "x")) ] (KStr (lit "B")) _).
  vm_compute. left. reflexivity.
Defined.

(** ** A CSV without [content] column *)

Lemma series_getitem_present (cols : list str) (r : list cell) (label : str) :
  In label cols -> List.length cols <= List.length r ->
  exists c, series_getitem (combine cols r) label = Ok c.
Proof.
  revert r; induction cols as [|c cols IH]; intros r Hin Hlen; [destruct Hin|].
  destruct r as [|x r]; simpl in Hlen; [lia|]. simpl.
  destruct (str_eqb c label) eqn:E; [now exists x|].
  destruct Hin as [->|Hin]; [now rewrite str_eqb_refl in E|].
  apply IH; [exact Hin | lia].
Qed.

Lemma main_loader_raises_no_delete (repr_str : str -> str) (W : World)
  (args : Args) (e : exn) :
  snd (load_csv_from_blob W (connection_string args) (container_name args)
         (file_name args)) = Raise e ->
  (exists e', snd (main repr_str W args) = Raise e')
  /\ delete_requests (base_url_of args) (index_name args)
       (fst (main repr_str W args)) = [].
Proof.
  rewrite load_csv_from_blob_eq. cbn [snd]. intros Hl.
  pose proof (search_index_no_delete W (base_url_of args) (index_name args)
                (api_key args)) as Hno.
  destruct (search_index W (base_url_of args) (index_name args) (api_key args))
    as [t [index_data|e0]] eqn:Hs; cbn [fst] in Hno.
  - rewrite (main_loader_raises repr_str _ _ Hs Hl). cbn [fst snd].
    split; [now exists e|]. rewrite delete_requests_app, Hno. reflexivity.
  - rewrite (main_search_raises repr_str _ _ Hs). cbn [fst snd].
    split; [now exists e0 | exact Hno].
Qed.

(** X12: a CSV that has an [id] column and at least one (full) data row but
    no [content] column makes the Reference Loader raise a [KeyError] on
    [content]; the run ends with an uncaught exception and without a delete
    request. *)
Theorem missing_content_column_is_fatal
  (repr_str : str -> str) (W : World) (args : Args)
  (text : str) (df : DataFrame) (r : list cell) (rest : list (list cell)) :
  download_blob W (connection_string args) (container_name args) (file_name args)
  = Ok text ->
  read_csv W text = Ok df ->
  In (lit "id") (columns df) ->
  ~ In (lit "content") (columns df) ->
  rows df = r :: rest ->
  List.length (columns df) <= List.length r ->
  load_csv_from_blob W (connection_string args) (container_name args)
                     (file_name args)
  = ([Download (connection_string args) (container_name args) (file_name args)],
     Raise (KeyError (lit "content")))
  /\ (exists e, snd (main repr_str W args) = Raise e)
  /\ delete_requests (base_url_of args) (index_name args)
       (fst (main repr_str W args)) = [].
Proof.
  intros Hd Hp Hid Hcontent Hrows Hlen.
  assert (Hl : load_csv_from_blob W (connection_string args) (container_name args)
                 (file_name args)
               = ([Download (connection_string args) (container_name args)
                            (file_name args)],
                  Raise (KeyError (lit "content")))).
  { rewrite load_csv_from_blob_eq, Hd. cbn [bindR]. rewrite Hp. cbn [bindR].
    unfold iterrows. rewrite Hrows. cbn [map csv_comprehension].
    destruct (@series_getitem_present (columns df) r (lit "id") Hid Hlen)
      as [c ->]. cbn [bindR].
    rewrite (@series_getitem_missing (columns df) r (lit "content") Hcontent).
    reflexivity. }
  split; [exact Hl|].
  apply (@main_loader_raises_no_delete repr_str W args (KeyError (lit "content"))).
  rewrite Hl. reflexivity.
Qed.

Lemma missing_content_column_witness :
  load_csv_from_blob missing_content_world (connection_string sample_args)
                     (container_name sample_args) (file_name sample_args)
  = ([Download (connection_string sample_args) (container_name sample_args)
               (file_name sample_args)],
     Raise (KeyError (lit "content"))).
Proof.
  refine (proj1
    (@missing_content_column_is_fatal (fun s => s) missing_content_world
       sample_args (lit "csv text")
       {| columns := [lit "id"; lit "title"];
          rows := [[CStr (lit "A"); CStr (lit "x")]] |}
       [CStr (lit "A"); CStr (lit "x")] [] _ _ _ _ _ _)).
  - reflexivity.
  - reflexivity.
  - left. reflexivity.
  - vm_compute. intros [H|[H|[]]]; discriminate H.
  - reflexivity.
  - simpl. lia.
Defined.

(** ** Ill-typed 200 responses *)

Lemma getitem_not_dict (obj : value) (name : str) :
  (forall d, obj <> VDict d) -> getitem obj name = Raise TypeError.
Proof.
  destruct obj; try reflexivity. intros H. now elim (H items).
Qed.

(** X13: on a 200 response whose JSON body is not an object (an array, a
    string, a number, null), or whose [value] is null, a boolean or a number,
    [search_index] raises a [TypeError] after the request, without printing
    and without returning a mapping. *)
Theorem ill_typed_200_body_raises_TypeError
  (W : World) (base_url index_name api_key : str)
  (response : Response) (body : value) :
  requests_post W (search_url base_url index_name) (request_headers api_key) query
  = Ok response ->
  status_code response = 200%Z ->
  json response = Ok body ->
  let request :=
    Post (search_url base_url index_name) (request_headers api_key) query in
  ((forall d, body <> VDict d) ->
   search_index W base_url index_name api_key = ([request], Raise TypeError))
  /\ (forall results,
         getitem body (lit "value") = Ok results ->
         plain_scalar results = true ->
         search_index W base_url index_name api_key
         = ([request], Raise TypeError)).
Proof.
  intros Hpost Hcode Hjson request.
  rewrite (search_index_success _ _ _ _ Hpost Hcode), Hjson. cbn [bindR].
  split.
  - intros Hbody. rewrite (getitem_not_dict _ Hbody). reflexivity.
  - intros results Hvalue Hscalar. rewrite Hvalue. cbn [bindR].
    destruct results; try discriminate; reflexivity.
Qed.

Lemma ill_typed_200_body_witness :
  search_index array_body_world (base_url_of sample_args)
               (index_name sample_args) (api_key sample_args)
  = ([ Post (search_url (base_url_of sample_args) (index_name sample_args))
            (request_headers (api_key sample_args)) query ],
     Raise TypeError).
Proof.
  refine (proj1
    (@ill_typed_200_body_raises_TypeError array_body_world
       (base_url_of sample_args) (index_name sample_args) (api_key sample_args)
       {| status_code := 200; text := lit "[]"; json := Ok (VList []) |}
       (VList []) _ _ _) _).
  - reflexivity.
  - reflexivity.
  - reflexivity.
  - intros d. discriminate.
Defined.

(** X14: when the results before it each have an id and a content, the
    first result that is not a JSON object, or that has an id and a content
    and whose id is an array or an object, makes [search_index] raise a
    [TypeError]: no snapshot is returned, not even of the results read so
    far. *)
Theorem ill_typed_result_raises_TypeError
  (W : World) (base_url index_name api_key : str)
  (response : Response) (body results : value)
  (pre rest : list value) (doc : value) (items : list (key * value)) :
  requests_post W (search_url base_url index_name) (request_headers api_key) query
  = Ok response ->
  status_code response = 200%Z ->
  json response = Ok body ->
  getitem body (lit "value") = Ok results ->
  iterate results = Ok (pre ++ doc :: rest) ->
  map_all doc_fields pre = Some items ->
  let request :=
    Post (search_url base_url index_name) (request_headers api_key) query in
  ((forall d, doc <> VDict d) ->
   search_index W base_url index_name api_key = ([request], Raise TypeError))
  /\ (forall i c,
         getitem doc (lit "id") = Ok i ->
         getitem doc (lit "content") = Ok c ->
         hashable i = None ->
         search_index W base_url index_name api_key
         = ([request], Raise TypeError)).
Proof.
  intros Hpost Hcode Hjson Hvalue Hiter Hitems request.
  rewrite (search_index_success _ _ _ _ Hpost Hcode), Hjson. cbn [bindR].
  rewrite Hvalue. cbn [bindR]. rewrite Hiter. cbn [bindR].
  rewrite (@index_comprehension_app pre (doc :: rest) items [] Hitems).
  cbn [index_comprehension].
  split.
  - intros Hdoc. rewrite (getitem_not_dict _ Hdoc). reflexivity.
  - intros i c Hi Hc Hh. rewrite Hi, Hc. cbn [bindR]. rewrite Hh. reflexivity.
Qed.

Lemma ill_typed_result_witness :
  search_index list_id_world (base_url_of sample_args)
               (index_name sample_args) (api_key sample_args)
  = ([ Post (search_url (base_url_of sample_args) (index_name sample_args))
            (request_headers (api_key sample_args)) query ],
     Raise TypeError).
Proof.
  refine (proj2
    (@ill_typed_result_raises_TypeError list_id_world
       (base_url_of sample_args) (index_name sample_args) (api_key sample_args)
       {| status_code := 200; text := lit "{...}";
          json := Ok (VDict [ (KStr (lit "@odata.context"), VStr (lit "ctx"));
                              (KStr (lit "value"),
                               VList [document (VStr (lit "A")) (VStr (lit "x"));
                                      document (VList [VInt 1]) (VStr (lit "y"))]) ]) |}
       (VDict [ (KStr (lit "@odata.context"), VStr (lit "ctx"));
                (KStr (lit "value"),
                 VList [document (VStr (lit "A")) (VStr (lit "x"));
                        document (VList [VInt 1]) (VStr (lit "y"))]) ])
       (VList [document (VStr (lit "A")) (VStr (lit "x"));
               document (VList [VInt 1]) (VStr (lit "y"))])
       [document (VStr (lit "A")) (VStr (lit "x"))] []
       (document (VList [VInt 1]) (VStr (lit "y")))
       [ (KStr (lit "A"), VStr (lit "x")) ]
       _ _ _ _ _ _)
    (VList [VInt 1]) (VStr (lit "y")) _ _ _).
  - reflexivity.
  - reflexivity.
  - reflexivity.
  - reflexivity.
  - reflexivity.
  - reflexivity.
  - reflexivity.
  - reflexivity.
  - reflexivity.
Defined.

(** X15: an exception raised by [requests.post] on the delete call ends the
    run with it, after the candidates were logged and the request issued;
    neither a deletion count nor an error line is printed. *)
Theorem delete_exception_ends_the_run
  (repr_str : str -> str) (W : World) (args : Args)
  (t t' : trace) (index_data : dict value) (csv_data : dict cell) (e : exn) :
  search_index W (base_url_of args) (index_name args) (api_key args)
  = (t, Ok index_data) ->
  load_csv_from_blob W (connection_string args) (container_name args)
                     (file_name args) = (t', Ok csv_data) ->
  let ids := missing_ids index_data csv_data in
  ids <> [] ->
  forallb (fun k => previewable (content_of index_data k)) ids = true ->
  requests_post W (delete_url (base_url_of args) (index_name args))
                (request_headers (api_key args)) (delete_data ids)
  = Raise e ->
  main repr_str W args =
  (t ++ t'
   ++ Print (lit "Deleting the following documents:")
   :: map (fun k => Print (candidate_line repr_str k
                             (preview_of (content_of index_data k)))) ids
   ++ [ Post (delete_url (base_url_of args) (index_name args))
             (request_headers (api_key args)) (delete_data ids) ],
   Raise e).
Proof.
  intros Hs Hl ids Hne Hprev Hpost.
  rewrite (main_sends_deletion_set repr_str W args Hs Hl Hne Hprev).
  fold ids. rewrite Hpost. reflexivity.
Qed.

Lemma delete_exception_witness :
  main (fun s => s) dropped_delete_world sample_args =
  ([ Post (search_url (base_url_of sample_args) (index_name sample_args))
          (request_headers (api_key sample_args)) query;
     Download (connection_string sample_args) (container_name sample_args)
              (file_name sample_args);
     Print (lit "Deleting the following documents:");
     Print (lit "ID: A, x...");
     Post (delete_url (base_url_of sample_args) (index_name sample_args))
          (request_headers (api_key sample_args))
          (delete_data [KStr (lit "A")]) ],
   Raise (LibraryError (lit "ConnectionError"))).
Proof.
  refine (@delete_exception_ends_the_run (fun s => s) dropped_delete_world
            sample_args [_] [_]
            [ (KStr (lit "A"), VStr (lit "x")) ]
            [ (KStr (lit "B"), CStr (lit "y")) ]
            (LibraryError (lit "ConnectionError")) _ _ _ _ _).
  - vm_compute. reflexivity.
  - vm_compute. reflexivity.
  - vm_compute. discriminate.
  - vm_compute. reflexivity.
  - vm_compute. reflexivity.
Defined.
